(** * Route 53 record-set change: a shallow embedding of [src/change.py]

    The development follows the class [AWSRoute53RecordSet] method by
    method.  Python values are modelled as follows.

    - [str] is [string]; a character is one code point below 256.
    - [Optional[str]] is [option string]; [os.environ] is a
      [gmap string string].
    - Dictionaries and lists that travel to and from boto3 are the
      JSON-like type [value], dictionaries being [gmap string value].
    - An exception is a constructor of [exn].  A function that only
      computes returns in [exn + A]; a method that touches [self] or calls
      a collaborator is a function from [state] to a result in
      [raised + A] and a new [state], whose [trace] field records every
      call that leaves the process.
    - What the source delegates to a library (boto3, the waiter, the text
      of the interpreter's own messages, [json.dumps], the iteration order
      of a [set]) is a field of the record [World].

    Calls to [logger] have no influence on control flow and are left out. *)

From stdpp Require Import gmap strings list fin_maps.
From Stdlib Require Import ZArith Ascii String Permutation Lia.

Set Warnings "-register-all".
Local Open Scope Z_scope.

(** ** Values and exceptions *)

Inductive value :=
| VNone
| VBool (b : bool)
| VInt (z : Z)
| VStr (s : string)
| VList (l : list value)
| VDict (d : gmap string value).

(** The exception classes the program can meet.  [ClientError] and
    [WaiterError] are botocore's; [OtherError] stands for any other
    subclass of [Exception] raised by a collaborator. *)
Inductive exn :=
| NameError (msg : string)
| ValueError (msg : string)
| KeyError (key : string)
| TypeError (msg : string)
| AttributeError (msg : string)
| ClientError (msg : string)
| WaiterError (msg : string)
| OtherError (msg : string).

(** [SystemExit] derives from [BaseException], so that the clause
    [except Exception] lets it through. *)
Inductive raised :=
| Exc (e : exn)
| SystemExit (code : Z).

(** [str(e)].  For a [KeyError] Python prints the [repr] of the key; the
    keys of this program are the literals [ChangeInfo], [Id] and
    [ResponseMetadata], whose [repr] is the key between single quotes. *)
Definition str_exn (e : exn) : string :=
  match e with
  | NameError m | ValueError m | TypeError m | AttributeError m
  | ClientError m | WaiterError m | OtherError m => m
  | KeyError k => "'" +:+ k +:+ "'"
  end.

(** The failure kinds named by the specification, and the exception class
    that carries each of them in the source. *)
Inductive failure_kind :=
| MissingConfiguration
| InvalidInput
| RemoteServiceError
| WaitTimeoutError
| UnexpectedResponseShape
| OtherFailure.

Definition kind_of (e : exn) : failure_kind :=
  match e with
  | NameError _ => MissingConfiguration
  | ValueError _ => InvalidInput
  | ClientError _ => RemoteServiceError
  | WaiterError _ => WaitTimeoutError
  | KeyError _ => UnexpectedResponseShape
  | TypeError _ | AttributeError _ | OtherError _ => OtherFailure
  end.

(** ** Constants *)

Definition DEFAULT_TTL : Z := 300.
Definition DEFAULT_WAITER_DELAY : Z := 10.
Definition DEFAULT_WAITER_MAX_ATTEMPTS : Z := 50.

Definition SUPPORTED_RECORD_TYPES : gset string :=
  {[ "SOA"; "A"; "TXT"; "NS"; "CNAME"; "MX"; "PTR"; "SRV"; "SPF"; "AAAA" ]}.

Definition SUPPORTED_ACTIONS : gset string :=
  {[ "CREATE"; "DELETE"; "UPSERT" ]}.

(** ** The collaborators *)

Inductive status := PENDING | INSYNC.

Record World := {
  (** [boto3.client("route53")]: [None] when it returns a client. *)
  boto3_client : option exn;
  (** [client.get_waiter("resource_record_sets_changed")]. *)
  get_waiter : option exn;
  (** [client.change_resource_record_sets(HostedZoneId=, ChangeBatch=)]. *)
  change_resource_record_sets : value -> value -> exn + value;
  (** The status the remote service reports for a change at its [n]-th
      lookup (counted from 0). *)
  get_change : nat -> value -> status;
  (** The order in which the interpreter iterates over the two sets. *)
  actions_order : list string;
  record_types_order : list string;
  (** [sys.get_int_max_str_digits()]; 0 switches the limit off. *)
  int_max_str_digits : N;
  (** Text of the [ValueError] that [int] raises on a given string. *)
  int_error_text : string -> string;
  (** Text of the [TypeError] raised by [v[key]] when [v] is no dict. *)
  subscript_error_text : value -> string;
  (** [json.dumps(v, indent=4)]. *)
  json_dumps : value -> string
}.

(** Iterating over a set visits each of its elements once. *)
Definition world_ok (w : World) : Prop :=
  actions_order w ≡ₚ elements SUPPORTED_ACTIONS ∧
  record_types_order w ≡ₚ elements SUPPORTED_RECORD_TYPES.

Inductive event :=
| CallClient
| CallGetWaiter
| CallChange (zone : value) (batch : value)
| CallWait (id : value) (delay max_attempts : Z)
| Poll (id : value)
| Sleep (delay : Z)
| Stdout (s : string)
| Stderr (s : string).

(** The events that belong to the Completion Waiter. *)
Definition is_wait_event (ev : event) : bool :=
  match ev with
  | CallWait _ _ _ | Poll _ | Sleep _ => true
  | _ => false
  end.

Definition is_poll (ev : event) : bool :=
  match ev with Poll _ => true | _ => false end.

(** ** Strings as Python sees them *)

(** Truth value of an [Optional[str]]: [None] and [''] are false. *)
Definition truthy (o : option string) : bool :=
  match o with
  | None | Some "" => false
  | Some _ => true
  end.

(** What an f-string prints for an [Optional[str]]. *)
Definition fmt (o : option string) : string :=
  match o with
  | None => "None"
  | Some s => s
  end.

Definition to_value (o : option string) : value :=
  match o with
  | None => VNone
  | Some s => VStr s
  end.

(** [sep.join(l)]. *)
Fixpoint join (sep : string) (l : list string) : string :=
  match l with
  | [] => ""
  | [x] => x
  | x :: r => x +:+ sep +:+ join sep r
  end.

(** [str.lower] on code points below 256: the ASCII capitals and the
    Latin-1 capitals (U+00C0 to U+00DE without the sign U+00D7) move up
    by 32. *)
Definition lower_char (c : ascii) : ascii :=
  let n := N_of_ascii c in
  if ((65 <=? n) && (n <=? 90))%N then ascii_of_N (n + 32)
  else if ((192 <=? n) && (n <=? 222) && negb (n =? 215))%N
       then ascii_of_N (n + 32)
  else c.

Fixpoint py_lower (s : string) : string :=
  match s with
  | EmptyString => EmptyString
  | String c r => String (lower_char c) (py_lower r)
  end.

(** ** [int(s)] in base 10

    CPython first rewrites a string that is not pure ASCII: a code point
    of 127 or more becomes a blank when it is white space (below 256 these
    are U+0085 and U+00A0), its digit when it is a decimal digit (none
    below 256), and otherwise a question mark that ends the text.  It then
    reads: blanks, an optional sign, digits with single underscores between
    them, blanks.  A text with more digits than the interpreter's limit is
    refused. *)

Definition is_c_space (c : ascii) : bool :=
  let n := N_of_ascii c in
  (((9 <=? n) && (n <=? 13)) || (n =? 32))%N.

Definition is_unicode_space_high (c : ascii) : bool :=
  let n := N_of_ascii c in ((n =? 133) || (n =? 160))%N.

Definition digit_of (c : ascii) : option Z :=
  let n := N_of_ascii c in
  if ((48 <=? n) && (n <=? 57))%N then Some (Z.of_N n - 48) else None.

Definition is_ascii_char (c : ascii) : bool := (N_of_ascii c <? 128)%N.

Fixpoint transform_decimal_and_space (cs : list ascii) : list ascii :=
  match cs with
  | [] => []
  | c :: r =>
      if (N_of_ascii c <? 127)%N then c :: transform_decimal_and_space r
      else if is_unicode_space_high c then " "%char :: transform_decimal_and_space r
      else ["?"%char]
  end.

Fixpoint skip_spaces (cs : list ascii) : list ascii :=
  match cs with
  | c :: r => if is_c_space c then skip_spaces r else cs
  | [] => []
  end.

(** The digit scan: [prev_us] tells that the previous character was an
    underscore, [acc] is the value read so far and [n] the number of
    digits.  It returns the value, the digit count and the unread rest. *)
Fixpoint scan_digits (cs : list ascii) (prev_us : bool) (acc : Z) (n : N)
  : option (Z * N * list ascii) :=
  match cs with
  | c :: r =>
      match digit_of c with
      | Some d => scan_digits r false (10 * acc + d) (n + 1)%N
      | None =>
          if Ascii.eqb c "_" then
            if prev_us then None else scan_digits r true acc n
          else if prev_us then None else Some (acc, n, cs)
      end
  | [] => if prev_us then None else Some (acc, n, cs)
  end.

Definition MAX_STR_DIGITS_THRESHOLD : N := 640.

Definition py_int (w : World) (s : string) : option Z :=
  let cs := list_ascii_of_string s in
  let cs := if forallb is_ascii_char cs then cs
            else transform_decimal_and_space cs in
  let cs := skip_spaces cs in
  let '(sign, cs) :=
    match cs with
    | "+"%char :: r => (1, r)
    | "-"%char :: r => (-1, r)
    | _ => (1, cs)
    end in
  match cs with
  | "_"%char :: _ => None
  | _ =>
      match scan_digits cs false 0 0 with
      | Some (v, n, rest) =>
          if (n =? 0)%N then None
          else if ((MAX_STR_DIGITS_THRESHOLD <? n)
                   && (0 <? int_max_str_digits w)
                   && (int_max_str_digits w <? n))%N then None
          else match skip_spaces rest with
               | [] => Some (sign * v)
               | _ => None
               end
      | None => None
      end
  end.

(** ** Results without state: the validators *)

Definition res (A : Type) : Type := exn + A.

Definition try_except {A} (body : res A) (catches : exn -> bool)
    (handler : exn -> res A) : res A :=
  match body with
  | inl e => if catches e then handler e else inl e
  | inr a => inr a
  end.

Definition is_ValueError (e : exn) : bool :=
  match e with ValueError _ => true | _ => false end.

(** [x in S] for an [Optional[str]] and a set of strings. *)
Definition py_in (o : option string) (S : gset string) : bool :=
  match o with
  | Some s => bool_decide (s ∈ S)
  | None => false
  end.

(** The validators take what [_get_env] returned. *)
Definition _validate_record_type (w : World) (record_type : option string)
  : res unit :=
  if negb (py_in record_type SUPPORTED_RECORD_TYPES) then
    inl (ValueError ("Unsupported record type: " +:+ fmt record_type
                     +:+ ". Supported types: "
                     +:+ join ", " (record_types_order w)))
  else inr tt.

Definition _validate_action (w : World) (action : option string) : res unit :=
  if negb (py_in action SUPPORTED_ACTIONS) then
    inl (ValueError ("Unsupported action: " +:+ fmt action
                     +:+ ". Supported actions: "
                     +:+ join ", " (actions_order w)))
  else inr tt.

(** [int(ttl)] as a computation that may raise: a [TypeError] on [None],
    a [ValueError] on a string that is not a number. *)
Definition int_call (w : World) (o : option string) : res Z :=
  match o with
  | None =>
      inl (TypeError "int() argument must be a string, a bytes-like object or a real number, not 'NoneType'")
  | Some s =>
      match py_int w s with
      | Some n => inr n
      | None => inl (ValueError (int_error_text w s))
      end
  end.

Definition _validate_ttl (w : World) (ttl : option string) : res Z :=
  try_except
    (match (if truthy ttl then int_call w ttl else inr DEFAULT_TTL) with
     | inl e => inl e
     | inr ttl_value =>
         if (ttl_value <? 0) || (ttl_value >? 2147483647)
         then inl (ValueError "TTL must be between 0 and 2147483647")
         else inr ttl_value
     end)
    is_ValueError
    (fun e => inl (ValueError ("Invalid TTL value '" +:+ fmt ttl +:+ "': "
                               +:+ str_exn e))).

(** [_get_env]: [os.environ.get], then the test [not value and
    exit_on_missing]. *)
Definition _get_env (environ : gmap string string) (variable : string)
    (exit_on_missing : bool) : res (option string) :=
  let value := environ !! variable in
  if negb (truthy value) && exit_on_missing then
    inl (NameError ("Cannot find environment variable: " +:+ variable))
  else inr value.


(** ** Methods: state, exceptions and the trace of outside calls *)

Record state := {
  client : bool;                    (** [self.client] is set *)
  waiter : bool;                    (** [self.waiter] is set *)
  rr_skeleton : gmap string value;
  trace : list event                (** oldest call first *)
}.

Definition M (A : Type) : Type := state -> (raised + A) * state.

Definition ret {A} (a : A) : M A := fun s => (inr a, s).

Definition bind {A B} (m : M A) (f : A -> M B) : M B :=
  fun s =>
    match m s with
    | (inl r, s') => (inl r, s')
    | (inr a, s') => f a s'
    end.

Declare Scope py_scope.
Delimit Scope py_scope with py.
Notation "'let*' x ':=' m 'in' k" := (bind m (fun x => k))
  (at level 10, x name, m at level 100, k at level 200) : py_scope.
Local Open Scope py_scope.

Definition raise {A} (r : raised) : M A := fun s => (inl r, s).

Definition lift {A} (r : res A) : M A :=
  match r with
  | inl e => raise (Exc e)
  | inr a => ret a
  end.

(** The state after the outside calls [evs]. *)
Definition with_trace (s : state) (evs : list event) : state :=
  {| client := client s; waiter := waiter s; rr_skeleton := rr_skeleton s;
     trace := trace s ++ evs |}.

Definition emit (ev : event) : M unit :=
  fun s => (inr tt, with_trace s [ev]).

Definition set_client (b : bool) : M unit :=
  fun s => (inr tt, {| client := b; waiter := waiter s;
                       rr_skeleton := rr_skeleton s; trace := trace s |}).

Definition set_waiter (b : bool) : M unit :=
  fun s => (inr tt, {| client := client s; waiter := b;
                       rr_skeleton := rr_skeleton s; trace := trace s |}).

(** [self.rr_skeleton[key] = v]. *)
Definition set_skeleton (key : string) (v : value) : M unit :=
  fun s => (inr tt, {| client := client s; waiter := waiter s;
                       rr_skeleton := <[key := v]> (rr_skeleton s);
                       trace := trace s |}).

Definition get_state : M state := fun s => (inr s, s).

(** [try: body except C as e: handler]; only an [Exception] whose class
    the clause names is caught. *)
Definition try_exceptM {A} (body : M A) (catches : exn -> bool)
    (handler : exn -> M A) : M A :=
  fun s =>
    match body s with
    | (inl (Exc e), s') => if catches e then handler e s' else (inl (Exc e), s')
    | other => other
    end.

Definition is_ClientError (e : exn) : bool :=
  match e with ClientError _ => true | _ => false end.

Definition is_WaiterError (e : exn) : bool :=
  match e with WaiterError _ => true | _ => false end.

Definition is_Exception (e : exn) : bool := true.

(** [__init__]. *)
Definition __init__ : state :=
  {| client := false; waiter := false; rr_skeleton := ∅; trace := [] |}.

Definition _connect (w : World) : M unit :=
  let* s := get_state in
  if negb (client s) then
    try_exceptM
      (let* _ := emit CallClient in
       match boto3_client w with
       | Some e => raise (Exc e)
       | None =>
           let* _ := set_client true in
           let* _ := emit CallGetWaiter in
           match get_waiter w with
           | Some e => raise (Exc e)
           | None => set_waiter true
           end
       end)
      is_Exception
      (fun e => raise (Exc e))
  else ret tt.

Definition _set_comment (environ : gmap string string) : M unit :=
  let* comment := lift (_get_env environ "INPUT_AWS_ROUTE53_RR_COMMENT" false) in
  if truthy comment then set_skeleton "Comment" (to_value comment)
  else ret tt.

Definition _set_base_changes (w : World) (environ : gmap string string)
  : M unit :=
  let* action := lift (_get_env environ "INPUT_AWS_ROUTE53_RR_ACTION" true) in
  let* _ := lift (_validate_action w action) in
  let* name := lift (_get_env environ "INPUT_AWS_ROUTE53_RR_NAME" true) in
  let* record_type := lift (_get_env environ "INPUT_AWS_ROUTE53_RR_TYPE" true) in
  let* _ := lift (_validate_record_type w record_type) in
  let* ttl_str := lift (_get_env environ "INPUT_AWS_ROUTE53_RR_TTL" false) in
  let* ttl := lift (_validate_ttl w ttl_str) in
  let* value := lift (_get_env environ "INPUT_AWS_ROUTE53_RR_VALUE" true) in
  set_skeleton "Changes"
    (VList [VDict {[
       "Action" := to_value action;
       "ResourceRecordSet" := VDict {[
          "Name" := to_value name;
          "Type" := to_value record_type;
          "TTL" := VInt ttl;
          "ResourceRecords" := VList [VDict {[ "Value" := to_value value ]}]
       ]}
    ]}]).

Definition _build_record_set (w : World) (environ : gmap string string)
  : M (gmap string value) :=
  let* _ := _set_comment environ in
  let* _ := _set_base_changes w environ in
  let* s := get_state in
  ret (rr_skeleton s).

Definition _change_record_set (w : World) (environ : gmap string string)
    (record_set : gmap string value) : M value :=
  let* hosted_zone_id :=
    lift (_get_env environ "INPUT_AWS_ROUTE53_HOSTED_ZONE_ID" true) in
  try_exceptM
    (let* s := get_state in
     if client s then
       let* _ := emit (CallChange (to_value hosted_zone_id) (VDict record_set)) in
       lift (change_resource_record_sets w (to_value hosted_zone_id)
               (VDict record_set))
     else
       raise (Exc (AttributeError
         "'NoneType' object has no attribute 'change_resource_record_sets'")))
    is_ClientError
    (fun e => raise (Exc e)).

(** Modelled from the spec: the polling loop behind [self.waiter.wait],
    which belongs to botocore and is not part of the source.  Section 4.4
    of the specification describes it: the change-status lookup is polled
    at a fixed delay for up to a maximum number of attempts, a poll that
    sees the terminal status ends the wait, and running out of attempts
    is a [WaitTimeoutError] (botocore's [WaiterError]).  [n] counts the
    lookups made so far, [budget] the attempts left. *)
Fixpoint waiter_loop (w : World) (id : value) (delay : Z) (n budget : nat)
  : M unit :=
  match budget with
  | O => raise (Exc (WaiterError "Max attempts exceeded"))
  | S b =>
      let* _ := emit (Poll id) in
      match get_change w n id with
      | INSYNC => ret tt
      | PENDING =>
          match b with
          | O => raise (Exc (WaiterError "Max attempts exceeded"))
          | S _ =>
              let* _ := emit (Sleep delay) in
              waiter_loop w id delay (S n) b
          end
      end
  end.

(** [self.waiter.wait(Id=id, WaiterConfig={"Delay": d, "MaxAttempts": m})]. *)
Definition waiter_wait (w : World) (id : value) (delay max_attempts : Z)
  : M unit :=
  let* _ := emit (CallWait id delay max_attempts) in
  waiter_loop w id delay 0 (Z.to_nat max_attempts).

(** [wait_str.lower() in ('true', '1', 'yes')]. *)
Definition wait_flag_in (wait_str : option string) : bool :=
  match wait_str with
  | Some s => bool_decide (py_lower s ∈ ["true"; "1"; "yes"])
  | None => false
  end.

Definition _wait (w : World) (environ : gmap string string)
    (request_id : value) : M unit :=
  let* wait_str := lift (_get_env environ "INPUT_AWS_ROUTE53_WAIT" false) in
  if truthy wait_str && wait_flag_in wait_str then
    try_exceptM
      (let* s := get_state in
       if waiter s then
         waiter_wait w request_id DEFAULT_WAITER_DELAY
           DEFAULT_WAITER_MAX_ATTEMPTS
       else
         raise (Exc (AttributeError
           "'NoneType' object has no attribute 'wait'")))
      is_WaiterError
      (fun e => raise (Exc e))
  else ret tt.

(** [v[key]] for a string key. *)
Definition subscript (w : World) (v : value) (key : string) : res value :=
  match v with
  | VDict d =>
      match d !! key with
      | Some x => inr x
      | None => inl (KeyError key)
      end
  | _ => inl (TypeError (subscript_error_text w v))
  end.

Definition _obtain_request_id (w : World) (result : value) : res value :=
  match subscript w result "ChangeInfo" with
  | inl e => inl e
  | inr info => subscript w info "Id"
  end.

Definition _obtain_marshalled_result (w : World) (result : value)
  : res string :=
  match subscript w result "ResponseMetadata" with
  | inl e => inl e
  | inr metadata => inr (json_dumps w metadata)
  end.

Definition newline : string := String (ascii_of_N 10) EmptyString.

(** The [try] block of [change]: the pipeline itself. *)
Definition change_body (w : World) (environ : gmap string string) : M unit :=
  let* _ := _connect w in
  let* record_set := _build_record_set w environ in
  let* result := _change_record_set w environ record_set in
  let* request_id := lift (_obtain_request_id w result) in
  let* _ := _wait w environ request_id in
  let* output := lift (_obtain_marshalled_result w result) in
  emit (Stdout (output +:+ newline)).

Definition change (w : World) (environ : gmap string string) : M unit :=
  try_exceptM
    (change_body w environ)
    is_Exception
    (fun e =>
       let error_msg := "Route 53 record set change failed: " +:+ str_exn e in
       let* _ := emit (Stderr (error_msg +:+ newline)) in
       raise (SystemExit 1)).

(** [main]: a fresh object, one call of [change].  The result is the
    trace of outside calls and the exit status of the process. *)
Definition main_body (w : World) (environ : gmap string string) : M unit :=
  try_exceptM
    (change w environ)
    is_Exception
    (fun e =>
       let error_msg := "Fatal error: " +:+ str_exn e in
       let* _ := emit (Stderr (error_msg +:+ newline)) in
       raise (SystemExit 1)).

Definition exit_status (r : raised + unit) : Z :=
  match r with
  | inr _ => 0
  | inl (SystemExit code) => code
  | inl (Exc _) => 1
  end.

Definition main (w : World) (environ : gmap string string)
  : list event * Z :=
  let '(r, s) := main_body w environ __init__ in
  (trace s, exit_status r).

(** ** A concrete world and configuration *)

Definition sample_response : value :=
  VDict {[ "ChangeInfo" := VDict {[ "Id" := VStr "/change/C1";
                                    "Status" := VStr "PENDING" ]};
           "ResponseMetadata" := VDict {[ "HTTPStatusCode" := VInt 200 ]} ]}.

(** A service that accepts every change and reports [INSYNC] from the
    fourth lookup on. *)
Definition sample_world : World :=
  {| boto3_client := None;
     get_waiter := None;
     change_resource_record_sets := fun _ _ => inr sample_response;
     get_change := fun n _ => if (n <? 3)%nat then PENDING else INSYNC;
     actions_order := ["UPSERT"; "CREATE"; "DELETE"];
     record_types_order :=
       ["SOA"; "A"; "TXT"; "NS"; "CNAME"; "MX"; "PTR"; "SRV"; "SPF"; "AAAA"];
     int_max_str_digits := 4300;
     int_error_text := fun s => "invalid literal for int() with base 10: '" +:+ s +:+ "'";
     subscript_error_text := fun _ => "object is not subscriptable";
     json_dumps := fun _ => "{ ... }" |}.

(** The same service rejecting every change. *)
Definition rejecting_world : World :=
  {| boto3_client := boto3_client sample_world;
     get_waiter := get_waiter sample_world;
     change_resource_record_sets := fun _ _ => inl (ClientError "AccessDenied");
     get_change := get_change sample_world;
     actions_order := actions_order sample_world;
     record_types_order := record_types_order sample_world;
     int_max_str_digits := int_max_str_digits sample_world;
     int_error_text := int_error_text sample_world;
     subscript_error_text := subscript_error_text sample_world;
     json_dumps := json_dumps sample_world |}.

(** The same service never reaching [INSYNC]. *)
Definition pending_world : World :=
  {| boto3_client := boto3_client sample_world;
     get_waiter := get_waiter sample_world;
     change_resource_record_sets := change_resource_record_sets sample_world;
     get_change := fun _ _ => PENDING;
     actions_order := actions_order sample_world;
     record_types_order := record_types_order sample_world;
     int_max_str_digits := int_max_str_digits sample_world;
     int_error_text := int_error_text sample_world;
     subscript_error_text := subscript_error_text sample_world;
     json_dumps := json_dumps sample_world |}.

Definition sample_environ : gmap string string :=
  {[ "INPUT_AWS_ROUTE53_RR_ACTION" := "UPSERT";
     "INPUT_AWS_ROUTE53_RR_NAME" := "example.com";
     "INPUT_AWS_ROUTE53_RR_TYPE" := "A";
     "INPUT_AWS_ROUTE53_RR_VALUE" := "1.2.3.4";
     "INPUT_AWS_ROUTE53_HOSTED_ZONE_ID" := "Z123" ]}.

(** [a] occurs in [msg] as a contiguous piece. *)
Definition occurs_in (a msg : string) : Prop :=
  ∃ pre post, msg = pre +:+ a +:+ post.

(** The object once [_connect] has succeeded on a fresh one. *)
Definition connected : state :=
  {| client := true; waiter := true; rr_skeleton := ∅;
     trace := [CallClient; CallGetWaiter] |}.

(** ** Reading configurations and traces *)

(** The checks of [_set_base_changes], in the order in which it makes
    them. *)
Definition action_ok (environ : gmap string string) : bool :=
  py_in (environ !! "INPUT_AWS_ROUTE53_RR_ACTION") SUPPORTED_ACTIONS.

Definition name_ok (environ : gmap string string) : bool :=
  truthy (environ !! "INPUT_AWS_ROUTE53_RR_NAME").

Definition record_type_ok (environ : gmap string string) : bool :=
  py_in (environ !! "INPUT_AWS_ROUTE53_RR_TYPE") SUPPORTED_RECORD_TYPES.

Definition ttl_ok (w : World) (environ : gmap string string) : bool :=
  match _validate_ttl w (environ !! "INPUT_AWS_ROUTE53_RR_TTL") with
  | inr _ => true
  | inl _ => false
  end.

Definition value_ok (environ : gmap string string) : bool :=
  truthy (environ !! "INPUT_AWS_ROUTE53_RR_VALUE").

Definition config_valid (w : World) (environ : gmap string string) : bool :=
  action_ok environ && name_ok environ && record_type_ok environ
  && ttl_ok w environ && value_ok environ.

(** The keys that are read with [exit_on_missing] set, in reading order. *)
Inductive required_key :=
| KAction
| KName
| KRecordType
| KValue
| KHostedZoneId.

Definition key_name (k : required_key) : string :=
  match k with
  | KAction => "INPUT_AWS_ROUTE53_RR_ACTION"
  | KName => "INPUT_AWS_ROUTE53_RR_NAME"
  | KRecordType => "INPUT_AWS_ROUTE53_RR_TYPE"
  | KValue => "INPUT_AWS_ROUTE53_RR_VALUE"
  | KHostedZoneId => "INPUT_AWS_ROUTE53_HOSTED_ZONE_ID"
  end.

(** The checks that the pipeline has passed when it comes to read [k]. *)
Definition checks_before (w : World) (environ : gmap string string)
    (k : required_key) : bool :=
  match k with
  | KAction => true
  | KName => action_ok environ
  | KRecordType => action_ok environ && name_ok environ
  | KValue =>
      action_ok environ && name_ok environ && record_type_ok environ
      && ttl_ok w environ
  | KHostedZoneId => config_valid w environ
  end.

Definition missing_msg (k : required_key) : string :=
  "Cannot find environment variable: " +:+ key_name k.

(** The test of [_wait] on the configuration. *)
Definition wait_requested (environ : gmap string string) : bool :=
  truthy (environ !! "INPUT_AWS_ROUTE53_WAIT")
  && wait_flag_in (environ !! "INPUT_AWS_ROUTE53_WAIT").

(** Number of status lookups in a trace. *)
Definition polls (evs : list event) : nat :=
  List.length (List.filter is_poll evs).

(** The line that [change] writes on standard error for an exception. *)
Definition fail_line (e : exn) : event :=
  Stderr (("Route 53 record set change failed: " +:+ str_exn e) +:+ newline).

Definition is_output (ev : event) : bool :=
  match ev with Stdout _ | Stderr _ => true | _ => false end.

(** ** Further readings of traces and configurations *)

Definition is_submit (ev : event) : bool :=
  match ev with CallChange _ _ => true | _ => false end.

(** Number of submissions in a trace. *)
Definition submissions (evs : list event) : nat :=
  List.length (List.filter is_submit evs).

(** The environment variables that the program reads through
    [_get_env]. *)
Definition READ_KEYS : list string :=
  [ "INPUT_AWS_ROUTE53_RR_COMMENT"; "INPUT_AWS_ROUTE53_RR_ACTION";
    "INPUT_AWS_ROUTE53_RR_NAME"; "INPUT_AWS_ROUTE53_RR_TYPE";
    "INPUT_AWS_ROUTE53_RR_TTL"; "INPUT_AWS_ROUTE53_RR_VALUE";
    "INPUT_AWS_ROUTE53_HOSTED_ZONE_ID"; "INPUT_AWS_ROUTE53_WAIT" ].

(** Two environments with the same values for these variables. *)
Definition agree_on_read_keys (e1 e2 : gmap string string) : Prop :=
  ∀ key, key ∈ READ_KEYS → e1 !! key = e2 !! key.

(** A string made of blanks only. *)
Definition all_blank (s : string) : bool :=
  forallb is_c_space (list_ascii_of_string s).

(** The line that the handler of [main] would write. *)
Definition fatal_line (e : exn) : event :=
  Stderr (("Fatal error: " +:+ str_exn e) +:+ newline).

(** The sample service when no client can be created, and when the client
    has no waiter. *)
Definition no_client_world : World :=
  {| boto3_client := Some (OtherError "NoCredentialsError");
     get_waiter := get_waiter sample_world;
     change_resource_record_sets := change_resource_record_sets sample_world;
     get_change := get_change sample_world;
     actions_order := actions_order sample_world;
     record_types_order := record_types_order sample_world;
     int_max_str_digits := int_max_str_digits sample_world;
     int_error_text := int_error_text sample_world;
     subscript_error_text := subscript_error_text sample_world;
     json_dumps := json_dumps sample_world |}.

Definition no_waiter_world : World :=
  {| boto3_client := None;
     get_waiter := Some (ValueError "Waiter does not exist");
     change_resource_record_sets := change_resource_record_sets sample_world;
     get_change := get_change sample_world;
     actions_order := actions_order sample_world;
     record_types_order := record_types_order sample_world;
     int_max_str_digits := int_max_str_digits sample_world;
     int_error_text := int_error_text sample_world;
     subscript_error_text := subscript_error_text sample_world;
     json_dumps := json_dumps sample_world |}.

(** The sample service answering without [ResponseMetadata]. *)
Definition no_metadata_world : World :=
  {| boto3_client := None;
     get_waiter := None;
     change_resource_record_sets := fun _ _ =>
       inr (VDict {[ "ChangeInfo" := VDict {[ "Id" := VStr "/change/C1" ]} ]});
     get_change := fun _ _ => INSYNC;
     actions_order := actions_order sample_world;
     record_types_order := record_types_order sample_world;
     int_max_str_digits := int_max_str_digits sample_world;
     int_error_text := int_error_text sample_world;
     subscript_error_text := subscript_error_text sample_world;
     json_dumps := json_dumps sample_world |}.

(** * Properties *)

(** ** Basic facts *)

Example py_int_examples w :
  py_int w "300" = Some 300 ∧ py_int w " +1_000 " = Some 1000 ∧
  py_int w "-0" = Some 0 ∧ py_int w "-5" = Some (-5) ∧ py_int w "" = None ∧
  py_int w "1__0" = None ∧ py_int w "12a" = None ∧ py_int w "_1" = None ∧
  py_int w "1_" = None ∧ py_int w "+" = None ∧ py_int w "  " = None ∧
  py_int w "2147483648" = Some 2147483648.
Proof. repeat split; reflexivity. Qed.

Example py_lower_examples :
  py_lower "TRUE" = "true" ∧ py_lower "Yes" = "yes" ∧ py_lower "1" = "1" ∧
  py_lower "False" = "false" ∧ py_lower " true" = " true".
Proof. repeat split; reflexivity. Qed.

Lemma append_assoc (a b c : string) : (a +:+ b) +:+ c = a +:+ b +:+ c.
Proof.
  induction a as [|x a IH]; [reflexivity |].
  change (String x ((a +:+ b) +:+ c) = String x (a +:+ b +:+ c)).
  by rewrite IH.
Qed.


Lemma occurs_in_refl a : occurs_in a a.
Proof.
  exists "", "". change (a = a +:+ "").
  induction a as [|x a IH]; [done |].
  change (String x a = String x (a +:+ "")). by rewrite <- IH.
Qed.

Lemma occurs_in_app_l a b c : occurs_in a b → occurs_in a (b +:+ c).
Proof.
  intros (pre & post & ->). exists pre, (post +:+ c).
  by rewrite !append_assoc.
Qed.

Lemma occurs_in_app_r a b c : occurs_in a c → occurs_in a (b +:+ c).
Proof.
  intros (pre & post & ->). exists (b +:+ pre), post.
  by rewrite !append_assoc.
Qed.

Lemma occurs_in_join sep a l : a ∈ l → occurs_in a (join sep l).
Proof.
  induction l as [|x l IH]; intros Hin; [by apply elem_of_nil in Hin |].
  apply elem_of_cons in Hin as [-> | Hin].
  - destruct l; simpl; [apply occurs_in_refl |].
    apply occurs_in_app_l, occurs_in_refl.
  - destruct l as [|y l]; [by apply elem_of_nil in Hin |].
    change (join sep (x :: y :: l)) with (x +:+ sep +:+ join sep (y :: l)).
    by apply occurs_in_app_r, occurs_in_app_r, IH.
Qed.

Lemma elem_of_SUPPORTED_ACTIONS s :
  s ∈ SUPPORTED_ACTIONS ↔ s = "CREATE" ∨ s = "DELETE" ∨ s = "UPSERT".
Proof.
  unfold SUPPORTED_ACTIONS. rewrite !elem_of_union, !elem_of_singleton. tauto.
Qed.

Lemma elem_of_SUPPORTED_RECORD_TYPES s :
  s ∈ SUPPORTED_RECORD_TYPES ↔
  s = "SOA" ∨ s = "A" ∨ s = "TXT" ∨ s = "NS" ∨ s = "CNAME" ∨ s = "MX" ∨
  s = "PTR" ∨ s = "SRV" ∨ s = "SPF" ∨ s = "AAAA".
Proof.
  unfold SUPPORTED_RECORD_TYPES.
  rewrite !elem_of_union, !elem_of_singleton. tauto.
Qed.

Lemma sample_world_ok : world_ok sample_world.
Proof.
  split; apply (bool_decide_unpack _); vm_compute; reflexivity.
Qed.

(** ** The validators *)

(** C1. A TTL string that parses as an integer within [0, 2147483647] is
    returned as that integer; an empty or absent TTL gives the default
    300; any other string, unparsable or out of range, fails with a
    [ValueError], the InvalidInput failure. *)
Theorem validate_ttl_cases (w : World) :
  (∀ s n, py_int w s = Some n → 0 ≤ n ≤ 2147483647 →
          _validate_ttl w (Some s) = inr n) ∧
  _validate_ttl w (Some "") = inr 300 ∧
  _validate_ttl w None = inr 300 ∧
  (∀ s, s ≠ "" →
        (py_int w s = None ∨
         ∃ n, py_int w s = Some n ∧ ¬ (0 ≤ n ≤ 2147483647)) →
        ∃ msg, _validate_ttl w (Some s) = inl (ValueError msg) ∧
               kind_of (ValueError msg) = InvalidInput).
Proof.
  repeat split.
  - intros s n Hparse Hrange.
    assert (Hs : truthy (Some s) = true) by (destruct s; [done | reflexivity]).
    unfold _validate_ttl, try_except. rewrite Hs. simpl. rewrite Hparse.
    destruct (n <? 0) eqn:Hlo; [lia |].
    destruct (n >? 2147483647) eqn:Hhi; [lia | reflexivity].
  - intros s Hne Hbad.
    assert (Hs : truthy (Some s) = true) by (by destruct s).
    unfold _validate_ttl, try_except. rewrite Hs. simpl.
    destruct Hbad as [Hnone | (n & Hsome & Hout)].
    + rewrite Hnone. simpl. eauto.
    + rewrite Hsome.
      destruct ((n <? 0) || (n >? 2147483647)) eqn:Hb; simpl; [eauto |].
      apply orb_false_iff in Hb as [Hlo Hhi]. lia.
Qed.

Lemma validate_ttl_cases_witness :
  _validate_ttl sample_world (Some "3600") = inr 3600 ∧
  ∃ msg, _validate_ttl sample_world (Some "-1") = inl (ValueError msg) ∧
         kind_of (ValueError msg) = InvalidInput.
Proof.
  split.
  - apply (proj1 (validate_ttl_cases sample_world) "3600" 3600);
      [reflexivity | lia].
  - apply (proj2 (proj2 (proj2 (validate_ttl_cases sample_world))) "-1");
      [discriminate |].
    right. exists (-1). split; [reflexivity | lia].
Defined.

Lemma actions_order_elem w a :
  world_ok w → a ∈ SUPPORTED_ACTIONS → a ∈ actions_order w.
Proof. intros [Hperm _] Ha. rewrite Hperm. by apply elem_of_elements. Qed.

Lemma record_types_order_elem w a :
  world_ok w → a ∈ SUPPORTED_RECORD_TYPES → a ∈ record_types_order w.
Proof. intros [_ Hperm] Ha. rewrite Hperm. by apply elem_of_elements. Qed.

(** C2. The action validator succeeds exactly on CREATE, DELETE and
    UPSERT, the record-type validator exactly on the ten supported types;
    on any other string each raises a [ValueError] (InvalidInput) whose
    message contains the offending value and every allowed value. *)
Theorem validators_accept_exactly (w : World) (s : string) :
  world_ok w →
  (_validate_action w (Some s) = inr tt ↔
   s = "CREATE" ∨ s = "DELETE" ∨ s = "UPSERT") ∧
  (¬ (s = "CREATE" ∨ s = "DELETE" ∨ s = "UPSERT") →
   ∃ msg, _validate_action w (Some s) = inl (ValueError msg) ∧
          kind_of (ValueError msg) = InvalidInput ∧
          occurs_in s msg ∧
          ∀ a, a = "CREATE" ∨ a = "DELETE" ∨ a = "UPSERT" → occurs_in a msg) ∧
  (_validate_record_type w (Some s) = inr tt ↔
   s = "SOA" ∨ s = "A" ∨ s = "TXT" ∨ s = "NS" ∨ s = "CNAME" ∨ s = "MX" ∨
   s = "PTR" ∨ s = "SRV" ∨ s = "SPF" ∨ s = "AAAA") ∧
  (¬ (s = "SOA" ∨ s = "A" ∨ s = "TXT" ∨ s = "NS" ∨ s = "CNAME" ∨ s = "MX" ∨
      s = "PTR" ∨ s = "SRV" ∨ s = "SPF" ∨ s = "AAAA") →
   ∃ msg, _validate_record_type w (Some s) = inl (ValueError msg) ∧
          kind_of (ValueError msg) = InvalidInput ∧
          occurs_in s msg ∧
          ∀ a, a = "SOA" ∨ a = "A" ∨ a = "TXT" ∨ a = "NS" ∨ a = "CNAME" ∨
               a = "MX" ∨ a = "PTR" ∨ a = "SRV" ∨ a = "SPF" ∨ a = "AAAA" →
               occurs_in a msg).
Proof.
  intros Hw.
  rewrite <- !elem_of_SUPPORTED_ACTIONS, <- !elem_of_SUPPORTED_RECORD_TYPES.
  unfold _validate_action, _validate_record_type, py_in.
  split; [| split; [| split]].
  - case_bool_decide; simpl; split; intros; done.
  - intros Hn. rewrite bool_decide_eq_false_2 by done. simpl.
    eexists. split; [reflexivity |]. split; [reflexivity |]. split.
    + apply occurs_in_app_r, occurs_in_app_l, occurs_in_refl.
    + intros a Ha. rewrite <- elem_of_SUPPORTED_ACTIONS in Ha.
      do 3 apply occurs_in_app_r.
      by apply occurs_in_join, actions_order_elem.
  - case_bool_decide; simpl; split; intros; done.
  - intros Hn. rewrite bool_decide_eq_false_2 by done. simpl.
    eexists. split; [reflexivity |]. split; [reflexivity |]. split.
    + apply occurs_in_app_r, occurs_in_app_l, occurs_in_refl.
    + intros a Ha. rewrite <- elem_of_SUPPORTED_RECORD_TYPES in Ha.
      do 3 apply occurs_in_app_r.
      by apply occurs_in_join, record_types_order_elem.
Qed.

Lemma validators_accept_exactly_witness :
  _validate_action sample_world (Some "UPSERT") = inr tt ∧
  (∃ msg, _validate_action sample_world (Some "REMOVE") = inl (ValueError msg) ∧
          kind_of (ValueError msg) = InvalidInput ∧
          occurs_in "REMOVE" msg ∧
          ∀ a, a = "CREATE" ∨ a = "DELETE" ∨ a = "UPSERT" → occurs_in a msg) ∧
  _validate_record_type sample_world (Some "AAAA") = inr tt.
Proof.
  pose proof (validators_accept_exactly sample_world "UPSERT" sample_world_ok)
    as (Ha & _).
  pose proof (validators_accept_exactly sample_world "REMOVE" sample_world_ok)
    as (_ & Hr & _).
  pose proof (validators_accept_exactly sample_world "AAAA" sample_world_ok)
    as (_ & _ & Ht & _).
  split; [apply Ha; auto |]. split.
  - apply Hr. intros [H | [H | H]]; discriminate H.
  - apply Ht. repeat (first [left; reflexivity | right]). reflexivity.
Defined.

(** ** Reading the configuration *)

Lemma py_in_truthy o S : py_in o S = true → "" ∉ S → truthy o = true.
Proof.
  destruct o as [[|c s] |]; simpl; try done.
  intros H Hn. by apply bool_decide_eq_true in H.
Qed.

Lemma empty_not_action : "" ∉ SUPPORTED_ACTIONS.
Proof. rewrite elem_of_SUPPORTED_ACTIONS. intros [H | [H | H]]; discriminate H. Qed.

Lemma empty_not_record_type : "" ∉ SUPPORTED_RECORD_TYPES.
Proof.
  rewrite elem_of_SUPPORTED_RECORD_TYPES.
  intros H. repeat (destruct H as [H | H]; [discriminate H |]). discriminate H.
Qed.

Lemma get_env_required environ k :
  _get_env environ k true =
  if truthy (environ !! k) then inr (environ !! k)
  else inl (NameError ("Cannot find environment variable: " +:+ k)).
Proof. unfold _get_env. by destruct (truthy (environ !! k)). Qed.

Lemma get_env_optional environ k : _get_env environ k false = inr (environ !! k).
Proof. unfold _get_env. by rewrite andb_false_r. Qed.

(** ** The request builder *)

(** [_set_base_changes] stops at its first failing check. *)
Lemma set_base_changes_eq w environ s :
  _set_base_changes w environ s =
  let action := environ !! "INPUT_AWS_ROUTE53_RR_ACTION" in
  let name := environ !! "INPUT_AWS_ROUTE53_RR_NAME" in
  let record_type := environ !! "INPUT_AWS_ROUTE53_RR_TYPE" in
  let value := environ !! "INPUT_AWS_ROUTE53_RR_VALUE" in
  if negb (truthy action) then
    (inl (Exc (NameError
       "Cannot find environment variable: INPUT_AWS_ROUTE53_RR_ACTION")), s)
  else match _validate_action w action with
  | inl e => (inl (Exc e), s)
  | inr _ =>
  if negb (truthy name) then
    (inl (Exc (NameError
       "Cannot find environment variable: INPUT_AWS_ROUTE53_RR_NAME")), s)
  else if negb (truthy record_type) then
    (inl (Exc (NameError
       "Cannot find environment variable: INPUT_AWS_ROUTE53_RR_TYPE")), s)
  else match _validate_record_type w record_type with
  | inl e => (inl (Exc e), s)
  | inr _ =>
  match _validate_ttl w (environ !! "INPUT_AWS_ROUTE53_RR_TTL") with
  | inl e => (inl (Exc e), s)
  | inr ttl =>
  if negb (truthy value) then
    (inl (Exc (NameError
       "Cannot find environment variable: INPUT_AWS_ROUTE53_RR_VALUE")), s)
  else
    set_skeleton "Changes"
      (VList [VDict {[
         "Action" := to_value action;
         "ResourceRecordSet" := VDict {[
            "Name" := to_value name;
            "Type" := to_value record_type;
            "TTL" := VInt ttl;
            "ResourceRecords" := VList [VDict {[ "Value" := to_value value ]}]
         ]}
      ]}]) s
  end end end.
Proof.
  unfold _set_base_changes, bind. cbv zeta.
  rewrite !get_env_required, get_env_optional.
  destruct (truthy (environ !! "INPUT_AWS_ROUTE53_RR_ACTION")); [| done].
  cbn [negb lift ret raise].
  destruct (_validate_action w _); [done |]. cbn [lift ret raise].
  destruct (truthy (environ !! "INPUT_AWS_ROUTE53_RR_NAME")); [| done].
  cbn [negb lift ret raise].
  destruct (truthy (environ !! "INPUT_AWS_ROUTE53_RR_TYPE")); [| done].
  cbn [negb lift ret raise].
  destruct (_validate_record_type w _); [done |]. cbn [lift ret raise].
  destruct (_validate_ttl w _); [done |]. cbn [lift ret raise].
  destruct (truthy (environ !! "INPUT_AWS_ROUTE53_RR_VALUE")); done.
Qed.

Lemma validate_action_ok w o :
  py_in o SUPPORTED_ACTIONS = true → _validate_action w o = inr tt.
Proof. unfold _validate_action. by intros ->. Qed.

Lemma validate_action_fail w o :
  py_in o SUPPORTED_ACTIONS = false →
  ∃ msg, _validate_action w o = inl (ValueError msg).
Proof. unfold _validate_action. intros ->. simpl. eauto. Qed.

Lemma validate_record_type_ok w o :
  py_in o SUPPORTED_RECORD_TYPES = true → _validate_record_type w o = inr tt.
Proof. unfold _validate_record_type. by intros ->. Qed.

Lemma validate_record_type_fail w o :
  py_in o SUPPORTED_RECORD_TYPES = false →
  ∃ msg, _validate_record_type w o = inl (ValueError msg).
Proof. unfold _validate_record_type. intros ->. simpl. eauto. Qed.

(** [_validate_ttl] raises nothing but a [ValueError]. *)
Lemma validate_ttl_fail w o e :
  _validate_ttl w o = inl e → ∃ msg, e = ValueError msg.
Proof.
  unfold _validate_ttl, try_except, int_call.
  destruct (truthy o) eqn:Ht.
  - destruct o as [s |]; [| discriminate Ht].
    destruct (py_int w s) as [n |]; simpl.
    + destruct ((n <? 0) || (n >? 2147483647)); simpl; intros H;
        inversion H; eauto.
    + intros H; inversion H; eauto.
  - simpl. discriminate.
Qed.

(** [_set_comment] never raises and leaves the trace alone. *)
Lemma set_comment_eq environ s :
  _set_comment environ s =
  (inr tt,
   if truthy (environ !! "INPUT_AWS_ROUTE53_RR_COMMENT") then
     {| client := client s; waiter := waiter s;
        rr_skeleton := <["Comment" :=
                         to_value (environ !! "INPUT_AWS_ROUTE53_RR_COMMENT")]>
                         (rr_skeleton s);
        trace := trace s |}
   else s).
Proof.
  unfold _set_comment, bind. rewrite get_env_optional. cbn [lift ret].
  by destruct (truthy _).
Qed.

Lemma build_record_set_eq w environ s :
  _build_record_set w environ s =
  match _set_base_changes w environ (_set_comment environ s).2 with
  | (inl x, s2) => (inl x, s2)
  | (inr _, s2) => (inr (rr_skeleton s2), s2)
  end.
Proof.
  unfold _build_record_set, bind. rewrite set_comment_eq. cbn [snd].
  by destruct (_set_base_changes w environ _) as [[x | []] s2].
Qed.

(** The builder calls nobody, keeps the connection and, when it succeeds,
    has put exactly one entry under [Changes] on top of the skeleton that
    [_set_comment] left. *)
Lemma build_record_set_inv w environ s r s' :
  _build_record_set w environ s = (r, s') →
  trace s' = trace s ∧ client s' = client s ∧ waiter s' = waiter s ∧
  match r with
  | inr rs =>
      config_valid w environ = true ∧
      ∃ c, rs = <["Changes" := VList [c]]>
                  (rr_skeleton (_set_comment environ s).2)
  | inl x =>
      config_valid w environ = false ∧
      ∃ e, x = Exc e ∧ (kind_of e = MissingConfiguration ∨ kind_of e = InvalidInput)
  end.
Proof.
  rewrite build_record_set_eq, set_base_changes_eq, set_comment_eq.
  cbv zeta. cbn [snd]. unfold config_valid, action_ok, name_ok, record_type_ok,
    ttl_ok, value_ok.
  set (s1 := if truthy (environ !! "INPUT_AWS_ROUTE53_RR_COMMENT") then _ else s).
  assert (Hs1 : trace s1 = trace s ∧ client s1 = client s ∧ waiter s1 = waiter s)
    by (subst s1; by destruct (truthy _)).
  destruct (truthy (environ !! "INPUT_AWS_ROUTE53_RR_ACTION")) eqn:Ha; cbn [negb].
  2: { intros [= <- <-]. split_and!; try apply Hs1.
       - destruct (py_in _ SUPPORTED_ACTIONS) eqn:Hin; [| done].
         apply py_in_truthy in Hin; [congruence | apply empty_not_action].
       - eauto. }
  destruct (py_in (environ !! "INPUT_AWS_ROUTE53_RR_ACTION") SUPPORTED_ACTIONS)
    eqn:Hact.
  2: { destruct (validate_action_fail w _ Hact) as [msg ->].
       intros [= <- <-]. split_and!; try apply Hs1; eauto. }
  rewrite (validate_action_ok w _ Hact).
  destruct (truthy (environ !! "INPUT_AWS_ROUTE53_RR_NAME")) eqn:Hn; cbn [negb].
  2: { intros [= <- <-]. split_and!; try apply Hs1; eauto. }
  destruct (truthy (environ !! "INPUT_AWS_ROUTE53_RR_TYPE")) eqn:Ht; cbn [negb].
  2: { intros [= <- <-]. split_and!; try apply Hs1.
       - destruct (py_in _ SUPPORTED_RECORD_TYPES) eqn:Hin; [| done].
         apply py_in_truthy in Hin; [congruence | apply empty_not_record_type].
       - eauto. }
  destruct (py_in (environ !! "INPUT_AWS_ROUTE53_RR_TYPE") SUPPORTED_RECORD_TYPES)
    eqn:Htype.
  2: { destruct (validate_record_type_fail w _ Htype) as [msg ->].
       intros [= <- <-]. split_and!; try apply Hs1; eauto. }
  rewrite (validate_record_type_ok w _ Htype).
  destruct (_validate_ttl w _) as [e | ttl] eqn:Httl.
  { destruct (validate_ttl_fail _ _ _ Httl) as [msg ->].
    intros [= <- <-]. split_and!; try apply Hs1; eauto. }
  destruct (truthy (environ !! "INPUT_AWS_ROUTE53_RR_VALUE")) eqn:Hv; cbn [negb].
  2: { intros [= <- <-]. split_and!; try apply Hs1; eauto. }
  unfold set_skeleton. intros [= <- <-]. cbn [trace client waiter rr_skeleton].
  split_and!; try apply Hs1; eauto.
Qed.

(** ** Connection, submission and waiting *)

Lemma with_trace_nil s : with_trace s [] = s.
Proof. destruct s. unfold with_trace. cbn. by rewrite app_nil_r. Qed.

Lemma with_trace_app s a b :
  with_trace (with_trace s a) b = with_trace s (a ++ b).
Proof. unfold with_trace. cbn. by rewrite app_assoc. Qed.

(** Re-raising what was caught changes nothing. *)
Lemma try_except_reraise {A} (body : M A) catches s :
  try_exceptM body catches (λ e, raise (Exc e)) s = body s.
Proof.
  unfold try_exceptM, raise.
  destruct (body s) as [[[e | c] | a] s']; [by destruct (catches e) | done | done].
Qed.

Lemma connect_init_eq w :
  _connect w __init__ =
  match boto3_client w with
  | Some e => (inl (Exc e), with_trace __init__ [CallClient])
  | None =>
      match get_waiter w with
      | Some e =>
          (inl (Exc e),
           {| client := true; waiter := false; rr_skeleton := ∅;
              trace := [CallClient; CallGetWaiter] |})
      | None => (inr tt, connected)
      end
  end.
Proof.
  unfold _connect, bind, get_state. cbn [client __init__ negb].
  rewrite try_except_reraise. unfold bind, emit.
  destruct (boto3_client w); [done |].
  unfold set_client. cbn. by destruct (get_waiter w).
Qed.

Lemma change_record_set_eq w environ rs s :
  client s = true →
  _change_record_set w environ rs s =
  let zone := environ !! "INPUT_AWS_ROUTE53_HOSTED_ZONE_ID" in
  if negb (truthy zone) then
    (inl (Exc (NameError
       "Cannot find environment variable: INPUT_AWS_ROUTE53_HOSTED_ZONE_ID")), s)
  else
    let s' := with_trace s [CallChange (to_value zone) (VDict rs)] in
    match change_resource_record_sets w (to_value zone) (VDict rs) with
    | inl e => (inl (Exc e), s')
    | inr result => (inr result, s')
    end.
Proof.
  intros Hc. unfold _change_record_set, bind. rewrite get_env_required.
  cbv zeta. destruct (truthy _); [| done]. cbn [lift ret negb].
  rewrite try_except_reraise. unfold bind, get_state. rewrite Hc.
  unfold emit. by destruct (change_resource_record_sets w _ _).
Qed.

Lemma wait_eq w environ id s :
  _wait w environ id s =
  if wait_requested environ then
    if waiter s then
      waiter_loop w id DEFAULT_WAITER_DELAY 0
        (Z.to_nat DEFAULT_WAITER_MAX_ATTEMPTS)
        (with_trace s [CallWait id DEFAULT_WAITER_DELAY
                         DEFAULT_WAITER_MAX_ATTEMPTS])
    else
      (inl (Exc (AttributeError "'NoneType' object has no attribute 'wait'")), s)
  else (inr tt, s).
Proof.
  unfold _wait, bind, wait_requested. rewrite get_env_optional. cbn [lift ret].
  destruct (truthy _ && wait_flag_in _); [| done].
  rewrite try_except_reraise. unfold bind, get_state.
  by destruct (waiter s).
Qed.

(** The polling loop: what it appends to the trace, and how it ends. *)
Lemma waiter_loop_inv w id delay budget : ∀ n s r s',
  waiter_loop w id delay n budget s = (r, s') →
  ∃ evs, s' = with_trace s evs ∧
         Forall (λ ev, ev = Poll id ∨ ev = Sleep delay) evs ∧
         (polls evs ≤ budget)%nat ∧
         (r = inr tt ∨ ∃ msg, r = inl (Exc (WaiterError msg))).
Proof.
  induction budget as [| b IH]; intros n s r s' H.
  - inversion H; subst. exists []. rewrite with_trace_nil.
    split_and!; [done | constructor | done | eauto].
  - cbn [waiter_loop] in H. unfold bind, emit in H.
    destruct (get_change w n id).
    + destruct b as [| b'].
      * inversion H; subst. exists [Poll id].
        split_and!; [done | repeat constructor; auto | cbn; lia | eauto].
      * apply IH in H as (evs & -> & Hall & Hle & Hr).
        exists (Poll id :: Sleep delay :: evs).
        rewrite !with_trace_app. split_and!; [done | | | done].
        -- constructor; [auto |]. constructor; [auto | done].
        -- unfold polls in *. cbn. lia.
    + inversion H; subst. exists [Poll id].
      split_and!; [done | repeat constructor; auto | cbn; lia | eauto].
Qed.

(** A change that stays pending through the whole budget: the loop makes
    exactly [budget] lookups and raises [WaiterError]. *)
Lemma waiter_loop_timeout w id delay budget : ∀ n s,
  (∀ k, (n ≤ k < n + budget)%nat → get_change w k id = PENDING) →
  ∃ msg evs, waiter_loop w id delay n budget s
             = (inl (Exc (WaiterError msg)), with_trace s evs) ∧
             polls evs = budget.
Proof.
  induction budget as [| b IH]; intros n s Hp.
  - exists "Max attempts exceeded", []. by rewrite with_trace_nil.
  - cbn [waiter_loop]. unfold bind, emit.
    rewrite (Hp n) by lia.
    destruct b as [| b'].
    + by exists "Max attempts exceeded", [Poll id].
    + destruct (IH (S n) (with_trace (with_trace s [Poll id]) [Sleep delay]))
        as (msg & evs & Heq & Hn); [intros k Hk; apply Hp; lia |].
      exists msg, (Poll id :: Sleep delay :: evs).
      rewrite Heq, !with_trace_app. split; [done |].
      unfold polls in *. cbn. lia.
Qed.

(** A change first seen [INSYNC] at lookup [k] within the budget: the
    loop returns after exactly [k + 1] lookups. *)
Lemma waiter_loop_success w id delay budget : ∀ n s k,
  (k < budget)%nat →
  get_change w (n + k) id = INSYNC →
  (∀ j, (j < k)%nat → get_change w (n + j) id = PENDING) →
  ∃ evs, waiter_loop w id delay n budget s = (inr tt, with_trace s evs) ∧
         polls evs = S k.
Proof.
  induction budget as [| b IH]; intros n s k Hk Hin Hp; [lia |].
  cbn [waiter_loop]. unfold bind, emit.
  destruct k as [| k'].
  - rewrite Nat.add_0_r in Hin. rewrite Hin. by exists [Poll id].
  - specialize (Hp 0%nat ltac:(lia)) as Hp0. rewrite Nat.add_0_r in Hp0.
    rewrite Hp0. destruct b as [| b']; [lia |].
    destruct (IH (S n) (with_trace (with_trace s [Poll id]) [Sleep delay]) k')
      as (evs & Heq & Hn); [lia | | |].
    + by replace (S n + k')%nat with (n + S k')%nat by lia.
    + intros j Hj. replace (S n + j)%nat with (n + S j)%nat by lia.
      apply Hp. lia.
    + exists (Poll id :: Sleep delay :: evs).
      rewrite Heq, !with_trace_app. split; [done |].
      unfold polls in *. cbn. lia.
Qed.

Lemma wait_inv w environ id s r s' :
  waiter s = true →
  _wait w environ id s = (r, s') →
  ∃ evs, s' = with_trace s evs ∧
         Forall (λ ev, is_wait_event ev = true) evs ∧
         (wait_requested environ = false → evs = [] ∧ r = inr tt) ∧
         (r = inr tt ∨ ∃ msg, r = inl (Exc (WaiterError msg))).
Proof.
  intros Hw. rewrite wait_eq, Hw.
  destruct (wait_requested environ).
  - intros H. apply waiter_loop_inv in H as (evs & -> & Hall & _ & Hr).
    exists (CallWait id DEFAULT_WAITER_DELAY DEFAULT_WAITER_MAX_ATTEMPTS :: evs).
    rewrite with_trace_app. split_and!; [done | | done | done].
    constructor; [done |].
    eapply Forall_impl; [exact Hall |]. by intros ev [-> | ->].
  - intros [= <- <-]. exists []. rewrite with_trace_nil.
    split_and!; [done | constructor | done | eauto].
Qed.

(** ** The pipeline as a whole *)

Lemma change_body_eq w environ :
  change_body w environ __init__ =
  match boto3_client w with
  | Some e => (inl (Exc e), with_trace __init__ [CallClient])
  | None =>
  match get_waiter w with
  | Some e =>
      (inl (Exc e),
       {| client := true; waiter := false; rr_skeleton := ∅;
          trace := [CallClient; CallGetWaiter] |})
  | None =>
  match _build_record_set w environ connected with
  | (inl x, s2) => (inl x, s2)
  | (inr rs, s2) =>
  let zone := environ !! "INPUT_AWS_ROUTE53_HOSTED_ZONE_ID" in
  if negb (truthy zone) then
    (inl (Exc (NameError
       "Cannot find environment variable: INPUT_AWS_ROUTE53_HOSTED_ZONE_ID")),
     s2)
  else
  let s3 := with_trace s2 [CallChange (to_value zone) (VDict rs)] in
  match change_resource_record_sets w (to_value zone) (VDict rs) with
  | inl e => (inl (Exc e), s3)
  | inr result =>
  match _obtain_request_id w result with
  | inl e => (inl (Exc e), s3)
  | inr request_id =>
  match _wait w environ request_id s3 with
  | (inl x, s4) => (inl x, s4)
  | (inr _, s4) =>
  match _obtain_marshalled_result w result with
  | inl e => (inl (Exc e), s4)
  | inr output => (inr tt, with_trace s4 [Stdout (output +:+ newline)])
  end end end end end end end.
Proof.
  unfold change_body. unfold bind at 1. rewrite connect_init_eq.
  destruct (boto3_client w); [done |].
  destruct (get_waiter w); [done |].
  unfold bind at 1.
  destruct (_build_record_set w environ connected) as [[x | rs] s2] eqn:Hb;
    [done |].
  apply build_record_set_inv in Hb as (_ & Hc & _ & _).
  unfold bind at 1. rewrite change_record_set_eq by done. cbv zeta.
  destruct (truthy _); [| done]. cbn [negb].
  destruct (change_resource_record_sets w _ _) as [e | result]; [done |].
  unfold bind at 1.
  destruct (_obtain_request_id w result) as [e | request_id]; [done |].
  cbn [lift ret]. unfold bind at 1.
  destruct (_wait w environ request_id _) as [[x | []] s4]; [done |].
  unfold bind at 1.
  by destruct (_obtain_marshalled_result w result).
Qed.

(** The process: exit status 0 when the pipeline returns, and one line on
    standard error with exit status 1 when it raises. *)
Lemma main_eq w environ :
  main w environ =
  match change_body w environ __init__ with
  | (inr _, s) => (trace s, 0)
  | (inl (Exc e), s) =>
      (trace s ++ [Stderr (("Route 53 record set change failed: "
                            +:+ str_exn e) +:+ newline)], 1)
  | (inl (SystemExit code), s) => (trace s, code)
  end.
Proof.
  unfold main, main_body, change, try_exceptM.
  by destruct (change_body w environ __init__) as [[[e | code] | []] s].
Qed.

Ltac conn_events :=
  repeat (apply List.Forall_cons; [auto |]); apply List.Forall_nil.

(** Every run of [main] has one of two shapes.  Either nothing is
    submitted: the trace holds at most the two connection calls and the
    error line, and the status is 1.  Or the batch built from the
    configuration is submitted once, followed by the waiter's events and
    one last line of output. *)
Lemma main_cases w environ tr code :
  main w environ = (tr, code) →
  (∃ pre e, tr = pre ++ [fail_line e] ∧ code = 1 ∧
            Forall (λ ev, ev = CallClient ∨ ev = CallGetWaiter) pre ∧
            ((boto3_client w = None ∧ get_waiter w = None) →
             pre = [CallClient; CallGetWaiter] ∧
             ((∃ s2, _build_record_set w environ connected = (inl (Exc e), s2)) ∨
              (config_valid w environ = true ∧
               truthy (environ !! "INPUT_AWS_ROUTE53_HOSTED_ZONE_ID") = false ∧
               e = NameError
                 "Cannot find environment variable: INPUT_AWS_ROUTE53_HOSTED_ZONE_ID"))))
  ∨
  (∃ rs s2 wevs last,
      let zone := to_value (environ !! "INPUT_AWS_ROUTE53_HOSTED_ZONE_ID") in
      let s3 := with_trace s2 [CallChange zone (VDict rs)] in
      _build_record_set w environ connected = (inr rs, s2) ∧
      truthy (environ !! "INPUT_AWS_ROUTE53_HOSTED_ZONE_ID") = true ∧
      tr = [CallClient; CallGetWaiter; CallChange zone (VDict rs)]
           ++ wevs ++ [last] ∧
      Forall (λ ev, is_wait_event ev = true) wevs ∧
      is_output last = true ∧
      match change_resource_record_sets w zone (VDict rs) with
      | inl e => wevs = [] ∧ last = fail_line e ∧ code = 1
      | inr result =>
          match _obtain_request_id w result with
          | inl e => wevs = [] ∧ last = fail_line e ∧ code = 1
          | inr request_id =>
              ∃ r, _wait w environ request_id s3 = (r, with_trace s3 wevs) ∧
                   match r with
                   | inl (Exc e) => last = fail_line e ∧ code = 1
                   | inl (SystemExit _) => False
                   | inr _ =>
                       match _obtain_marshalled_result w result with
                       | inl e => last = fail_line e ∧ code = 1
                       | inr output =>
                           last = Stdout (output +:+ newline) ∧ code = 0
                       end
                   end
          end
      end).
Proof.
  rewrite main_eq, change_body_eq.
  destruct (boto3_client w) as [e |].
  { intros [= <- <-]. left. exists [CallClient], e.
    split_and!; [done | done | conn_events | by intros [? _]]. }
  destruct (get_waiter w) as [e |].
  { intros [= <- <-]. left. exists [CallClient; CallGetWaiter], e.
    split_and!; [done | done | conn_events | by intros [_ ?]]. }
  destruct (_build_record_set w environ connected) as [[x | rs] s2] eqn:Hb.
  { pose proof Hb as Hb'.
    apply build_record_set_inv in Hb' as (Htr & _ & _ & _ & e & -> & _).
    intros [= <- <-]. left. exists [CallClient; CallGetWaiter], e. rewrite Htr.
    split_and!; [done | done | conn_events |].
    intros _. split; [done |]. left. by exists s2. }
  pose proof Hb as Hb'.
  apply build_record_set_inv in Hb' as (Htr & _ & Hw & Hvalid & _).
  cbv zeta. destruct (truthy (environ !! _)) eqn:Hz; cbn [negb].
  2: { intros [= <- <-]. left.
       exists [CallClient; CallGetWaiter],
         (NameError
            "Cannot find environment variable: INPUT_AWS_ROUTE53_HOSTED_ZONE_ID").
       rewrite Htr. split_and!; [done | done | conn_events |].
       intros _. split; [done |]. by right. }
  destruct (change_resource_record_sets w _ _) as [e | result] eqn:Hsub.
  { intros [= <- <-]. right. exists rs, s2, [], (fail_line e).
    cbn [trace with_trace]. rewrite Htr, Hsub.
    split_and!; [done | done | done | constructor | done | done | done | done]. }
  destruct (_obtain_request_id w result) as [e | request_id] eqn:Hid.
  { intros [= <- <-]. right. exists rs, s2, [], (fail_line e).
    cbn [trace with_trace]. rewrite Htr, Hsub, Hid.
    split_and!; [done | done | done | constructor | done | done | done | done]. }
  destruct (_wait w environ request_id _) as [r s4] eqn:Hwait.
  pose proof Hwait as Hwait'.
  apply wait_inv in Hwait' as (wevs & -> & Hall & _ & Hr); [| exact Hw].
  destruct r as [x | []].
  - destruct Hr as [Hr | [msg [= ->]]]; [discriminate Hr |].
    intros [= <- <-]. right.
    exists rs, s2, wevs, (fail_line (WaiterError msg)).
    cbn [trace with_trace]. rewrite Htr, Hsub, Hid.
    split_and!; [done | done | by rewrite <- !app_assoc | done | done |].
    eexists. split; [exact Hwait |]. done.
  - destruct (_obtain_marshalled_result w result) as [e | output] eqn:Hout.
    + intros [= <- <-]. right. exists rs, s2, wevs, (fail_line e).
      cbn [trace with_trace]. rewrite Htr, Hsub, Hid.
      split_and!; [done | done | by rewrite <- !app_assoc | done | done |].
      eexists. split; [exact Hwait |]. cbn. by rewrite Hout.
    + intros [= <- <-]. right.
      exists rs, s2, wevs, (Stdout (output +:+ newline)).
      cbn [trace with_trace]. rewrite Htr, Hsub, Hid.
      split_and!; [done | done | by rewrite <- !app_assoc | done | done |].
      eexists. split; [exact Hwait |]. cbn. by rewrite Hout.
Qed.

(** A submission seen in the trace of [main] is the one submission of the
    second shape. *)
Lemma submitted_inv w environ tr code zone batch :
  main w environ = (tr, code) →
  CallChange zone batch ∈ tr →
  ∃ rs s2 wevs last,
    let s3 := with_trace s2 [CallChange zone batch] in
    zone = to_value (environ !! "INPUT_AWS_ROUTE53_HOSTED_ZONE_ID") ∧
    batch = VDict rs ∧
    _build_record_set w environ connected = (inr rs, s2) ∧
    tr = [CallClient; CallGetWaiter; CallChange zone batch] ++ wevs ++ [last] ∧
    Forall (λ ev, is_wait_event ev = true) wevs ∧
    is_output last = true ∧
    match change_resource_record_sets w zone batch with
    | inl e => wevs = [] ∧ last = fail_line e ∧ code = 1
    | inr result =>
        match _obtain_request_id w result with
        | inl e => wevs = [] ∧ last = fail_line e ∧ code = 1
        | inr request_id =>
            ∃ r, _wait w environ request_id s3 = (r, with_trace s3 wevs) ∧
                 match r with
                 | inl (Exc e) => last = fail_line e ∧ code = 1
                 | inl (SystemExit _) => False
                 | inr _ =>
                     match _obtain_marshalled_result w result with
                     | inl e => last = fail_line e ∧ code = 1
                     | inr output =>
                         last = Stdout (output +:+ newline) ∧ code = 0
                     end
                 end
        end
    end.
Proof.
  intros Hmain Hin.
  apply main_cases in Hmain
    as [(pre & e & -> & _ & Hpre & _)
       | (rs & s2 & wevs & last & Hb & _ & -> & Hw & Hlast & Hrest)].
  - exfalso. apply elem_of_app in Hin as [Hin | Hin].
    + rewrite Forall_forall in Hpre. by destruct (Hpre _ Hin).
    + by apply list_elem_of_singleton in Hin.
  - cbv zeta in Hin.
    rewrite !elem_of_app, !elem_of_cons, elem_of_nil in Hin.
    destruct Hin as [[Hin | [Hin | [Hin | []]]] | [Hin | [Hin | []]]];
      try discriminate Hin.
    + injection Hin as -> ->. by exists rs, s2, wevs, last.
    + rewrite Forall_forall in Hw. by apply Hw in Hin.
    + by subst last.
Qed.

Lemma validate_ttl_absent w : _validate_ttl w None = inr 300.
Proof. reflexivity. Qed.

Lemma build_succeeds w environ s :
  config_valid w environ = true →
  ∃ rs s', _build_record_set w environ s = (inr rs, s').
Proof.
  intros Hv.
  destruct (_build_record_set w environ s) as [[x | rs] s'] eqn:Hb; [| eauto].
  apply build_record_set_inv in Hb as (_ & _ & _ & Hf & _). congruence.
Qed.

(** C3. With action UPSERT, name example.com, type A, value 1.2.3.4 and no
    TTL key, the builder returns a batch whose [Changes] list is the single
    entry shown, with TTL 300.  In general a batch that the builder returns
    always has exactly one entry under [Changes]; the builder returns one
    for every valid configuration; and the batch that [main] submits is
    such a batch. *)
Theorem build_exactly_one_change (w : World) (environ : gmap string string) :
  (environ !! "INPUT_AWS_ROUTE53_RR_ACTION" = Some "UPSERT" →
   environ !! "INPUT_AWS_ROUTE53_RR_NAME" = Some "example.com" →
   environ !! "INPUT_AWS_ROUTE53_RR_TYPE" = Some "A" →
   environ !! "INPUT_AWS_ROUTE53_RR_VALUE" = Some "1.2.3.4" →
   environ !! "INPUT_AWS_ROUTE53_RR_TTL" = None →
   ∃ rs s',
     _build_record_set w environ __init__ = (inr rs, s') ∧
     rs !! "Changes" =
     Some (VList [VDict {[
        "Action" := VStr "UPSERT";
        "ResourceRecordSet" := VDict {[
           "Name" := VStr "example.com";
           "Type" := VStr "A";
           "TTL" := VInt 300;
           "ResourceRecords" := VList [VDict {[ "Value" := VStr "1.2.3.4" ]}]
        ]}
     ]}])) ∧
  (∀ s rs s', _build_record_set w environ s = (inr rs, s') →
              ∃ c, rs !! "Changes" = Some (VList [c])) ∧
  (config_valid w environ = true →
   ∀ s, ∃ rs s' c, _build_record_set w environ s = (inr rs, s') ∧
                   rs !! "Changes" = Some (VList [c])) ∧
  (∀ tr code zone batch,
     main w environ = (tr, code) → CallChange zone batch ∈ tr →
     ∃ rs c, batch = VDict rs ∧ rs !! "Changes" = Some (VList [c])).
Proof.
  assert (Hone : ∀ s rs s', _build_record_set w environ s = (inr rs, s') →
                            ∃ c, rs !! "Changes" = Some (VList [c])).
  { intros s rs s' Hb.
    apply build_record_set_inv in Hb as (_ & _ & _ & _ & c & ->).
    exists c. apply lookup_insert_eq. }
  split_and!.
  - intros Ha Hn Ht Hv Httl.
    rewrite build_record_set_eq, set_base_changes_eq. cbv zeta.
    rewrite Ha, Hn, Ht, Hv, Httl, validate_ttl_absent.
    rewrite (validate_action_ok w (Some "UPSERT")) by reflexivity.
    rewrite (validate_record_type_ok w (Some "A")) by reflexivity.
    cbn [truthy negb to_value]. unfold set_skeleton.
    eexists _, _. split; [reflexivity |]. cbn [rr_skeleton].
    apply lookup_insert_eq.
  - exact Hone.
  - intros Hv s. destruct (build_succeeds w environ s Hv) as (rs & s' & Hb).
    destruct (Hone _ _ _ Hb) as [c Hc]. by exists rs, s', c.
  - intros tr code zone batch Hmain Hin.
    destruct (submitted_inv _ _ _ _ _ _ Hmain Hin)
      as (rs & s2 & _ & _ & _ & -> & Hb & _).
    destruct (Hone _ _ _ Hb) as [c Hc]. eauto.
Qed.

Lemma build_exactly_one_change_witness :
  ∃ rs s',
    _build_record_set sample_world sample_environ __init__ = (inr rs, s') ∧
    rs !! "Changes" =
    Some (VList [VDict {[
       "Action" := VStr "UPSERT";
       "ResourceRecordSet" := VDict {[
          "Name" := VStr "example.com";
          "Type" := VStr "A";
          "TTL" := VInt 300;
          "ResourceRecords" := VList [VDict {[ "Value" := VStr "1.2.3.4" ]}]
       ]}
    ]}]).
Proof.
  apply (proj1 (build_exactly_one_change sample_world sample_environ));
    reflexivity.
Defined.

(** C4. When the comment key is absent, the batch built on a fresh object
    has no [Comment] key, and neither has the batch that [main] submits. *)
Theorem no_comment_field (w : World) (environ : gmap string string) :
  environ !! "INPUT_AWS_ROUTE53_RR_COMMENT" = None →
  (∀ rs s', _build_record_set w environ __init__ = (inr rs, s') →
            rs !! "Comment" = None) ∧
  (∀ tr code zone batch,
     main w environ = (tr, code) → CallChange zone batch ∈ tr →
     ∃ rs, batch = VDict rs ∧ rs !! "Comment" = None).
Proof.
  intros Hc.
  assert (Hnone : ∀ s rs s', rr_skeleton s = ∅ →
            _build_record_set w environ s = (inr rs, s') →
            rs !! "Comment" = None).
  { intros s rs s' Hs Hb.
    apply build_record_set_inv in Hb as (_ & _ & _ & _ & c & ->).
    rewrite set_comment_eq, Hc. cbn [truthy snd].
    rewrite lookup_insert_ne by done. by rewrite Hs. }
  split.
  - intros rs s'. by apply Hnone.
  - intros tr code zone batch Hmain Hin.
    destruct (submitted_inv _ _ _ _ _ _ Hmain Hin)
      as (rs & s2 & _ & _ & _ & -> & Hb & _).
    exists rs. split; [done |]. by apply (Hnone connected rs s2).
Qed.

Lemma no_comment_field_witness :
  sample_environ !! "INPUT_AWS_ROUTE53_RR_COMMENT" = None ∧
  ∃ rs s',
    _build_record_set sample_world sample_environ __init__ = (inr rs, s') ∧
    rs !! "Comment" = None.
Proof.
  split; [reflexivity |].
  destruct (_build_record_set sample_world sample_environ __init__)
    as [[x | rs] s'] eqn:Hb.
  - vm_compute in Hb. discriminate Hb.
  - exists rs, s'. split; [reflexivity |].
    apply (proj1 (no_comment_field sample_world sample_environ eq_refl) rs s' Hb).
Defined.

(** ** Submission and the Completion Waiter *)

(** C5. A run of [main] whose submission is rejected by the service ends
    right after the submission: the trace holds the two connection calls,
    the submission and the error line, no event of the waiter, and the
    exit status is 1.  More generally an event of the waiter appears in a
    trace only after a submission that the service accepted. *)
Theorem no_wait_after_failed_submission
    (w : World) (environ : gmap string string) (tr : list event) (code : Z) :
  main w environ = (tr, code) →
  (∀ zone batch e,
     CallChange zone batch ∈ tr →
     change_resource_record_sets w zone batch = inl e →
     tr = [CallClient; CallGetWaiter; CallChange zone batch; fail_line e] ∧
     Forall (λ ev, is_wait_event ev = false) tr ∧
     code = 1) ∧
  (∀ ev, ev ∈ tr → is_wait_event ev = true →
     ∃ zone batch result,
       CallChange zone batch ∈ tr ∧
       change_resource_record_sets w zone batch = inr result).
Proof.
  intros Hmain. split.
  - intros zone batch e Hin Hrej.
    destruct (submitted_inv _ _ _ _ _ _ Hmain Hin)
      as (rs & s2 & wevs & last & _ & _ & _ & -> & _ & _ & Hrest).
    rewrite Hrej in Hrest. destruct Hrest as (-> & -> & ->).
    split_and!; [done | | done].
    repeat (apply List.Forall_cons; [reflexivity |]). apply List.Forall_nil.
  - intros ev Hin Hev.
    apply main_cases in Hmain
      as [(pre & e & -> & _ & Hpre & _)
         | (rs & s2 & wevs & last & Hb & _ & -> & Hw & Hlast & Hrest)].
    + exfalso. apply elem_of_app in Hin as [Hin | Hin].
      * rewrite Forall_forall in Hpre.
        destruct (Hpre _ Hin) as [-> | ->]; discriminate Hev.
      * apply list_elem_of_singleton in Hin as ->. discriminate Hev.
    + cbv zeta in *.
      exists (to_value (environ !! "INPUT_AWS_ROUTE53_HOSTED_ZONE_ID")), (VDict rs).
      destruct (change_resource_record_sets w _ _) as [e | result] eqn:Hsub.
      * exfalso. destruct Hrest as (-> & -> & _).
        rewrite !elem_of_app, !elem_of_cons, elem_of_nil in Hin.
        destruct Hin as [[-> | [-> | [-> | []]]] | [[] | [-> | []]]];
          discriminate Hev.
      * exists result. split; [| done].
        apply elem_of_app. left. rewrite !elem_of_cons. auto.
Qed.

Lemma no_wait_after_failed_submission_witness :
  let environ := <["INPUT_AWS_ROUTE53_WAIT" := "true"]> sample_environ in
  Forall (λ ev, is_wait_event ev = false) (main rejecting_world environ).1 ∧
  (main rejecting_world environ).2 = 1.
Proof.
  intros environ.
  destruct (main rejecting_world environ) as [tr code] eqn:Hmain.
  destruct (proj1 (no_wait_after_failed_submission
                     rejecting_world environ tr code Hmain)
              (VStr "Z123")
              (VDict (<["Changes" := VList [VDict {[
                 "Action" := VStr "UPSERT";
                 "ResourceRecordSet" := VDict {[
                    "Name" := VStr "example.com";
                    "Type" := VStr "A";
                    "TTL" := VInt 300;
                    "ResourceRecords" :=
                      VList [VDict {[ "Value" := VStr "1.2.3.4" ]}]
                 ]}
              ]}]]> ∅))
              (ClientError "AccessDenied"))
    as (_ & Hnone & Hcode).
  - vm_compute in Hmain. injection Hmain as <- <-.
    apply (list_elem_of_lookup_2 _ 2%nat). vm_compute. reflexivity.
  - reflexivity.
  - split; assumption.
Defined.

Lemma wait_requested_false environ :
  (∀ s, environ !! "INPUT_AWS_ROUTE53_WAIT" = Some s →
        py_lower s ∉ ["true"; "1"; "yes"]) →
  wait_requested environ = false.
Proof.
  intros H. unfold wait_requested, wait_flag_in.
  destruct (environ !! "INPUT_AWS_ROUTE53_WAIT") as [s |]; [| done].
  rewrite bool_decide_eq_false_2 by auto. apply andb_false_r.
Qed.

(** C6. With the wait requested, [_wait] calls the waiter with delay 10
    and at most 50 attempts: the trace grows by that call followed by
    lookups and pauses of 10 only, with at most 50 lookups, and the wait
    ends normally or with a [WaiterError].  When the change is still
    pending at each of the 50 lookups, exactly 50 lookups are made and the
    outcome is a [WaiterError], the WaitTimeoutError failure, whose kind
    differs from that of any submission failure and which the clause
    [except ClientError] does not match. *)
Theorem wait_polls_within_budget
    (w : World) (environ : gmap string string) (id : value) (s : state) :
  wait_requested environ = true →
  waiter s = true →
  ∃ r evs,
    _wait w environ id s = (r, with_trace s (CallWait id 10 50 :: evs)) ∧
    Forall (λ ev, ev = Poll id ∨ ev = Sleep 10) evs ∧
    (polls evs ≤ 50)%nat ∧
    (r = inr tt ∨ ∃ msg, r = inl (Exc (WaiterError msg))) ∧
    ((∀ k, (k < 50)%nat → get_change w k id = PENDING) →
     polls evs = 50%nat ∧
     ∃ msg, r = inl (Exc (WaiterError msg)) ∧
            kind_of (WaiterError msg) = WaitTimeoutError ∧
            is_ClientError (WaiterError msg) = false ∧
            ∀ e, kind_of e = RemoteServiceError →
                 kind_of (WaiterError msg) ≠ kind_of e).
Proof.
  intros Hreq Hw. rewrite wait_eq, Hreq, Hw.
  change (Z.to_nat DEFAULT_WAITER_MAX_ATTEMPTS) with 50%nat.
  change DEFAULT_WAITER_DELAY with 10.
  change DEFAULT_WAITER_MAX_ATTEMPTS with 50.
  destruct (waiter_loop w id 10 0 50 (with_trace s [CallWait id 10 50]))
    as [r s'] eqn:Hloop.
  pose proof Hloop as Hinv.
  apply waiter_loop_inv in Hinv as (evs & -> & Hall & Hle & Hr).
  exists r, evs. rewrite with_trace_app.
  split_and!; [done | done | done | done |].
  intros Hp.
  destruct (waiter_loop_timeout w id 10 50 0 (with_trace s [CallWait id 10 50]))
    as (msg & evs' & Heq & Hn); [intros k Hk; apply Hp; lia |].
  rewrite Hloop in Heq. injection Heq as -> Hs.
  assert (evs = evs') as ->.
  { by apply app_inv_head in Hs. }
  split; [done |]. exists msg. split_and!; [done | done | done |].
  intros e He. rewrite He. discriminate.
Qed.

Lemma wait_polls_within_budget_witness :
  let environ := <["INPUT_AWS_ROUTE53_WAIT" := "YES"]> sample_environ in
  ∃ r evs,
    _wait pending_world environ (VStr "/change/C1") connected
    = (r, with_trace connected (CallWait (VStr "/change/C1") 10 50 :: evs)) ∧
    polls evs = 50%nat ∧
    ∃ msg, r = inl (Exc (WaiterError msg)).
Proof.
  intros environ.
  destruct (wait_polls_within_budget pending_world environ
              (VStr "/change/C1") connected eq_refl eq_refl)
    as (r & evs & Heq & _ & _ & _ & Hto).
  destruct (Hto (λ k _, eq_refl)) as (Hn & msg & Hr & _).
  exists r, evs. split; [exact Heq |]. split; [exact Hn |].
  exists msg. exact Hr.
Defined.

(** C7. When the wait flag is absent, or is any string that does not
    lower-case to true, 1 or yes, [_wait] returns at once in the state it
    was called in, so without any call.  Submission success alone then
    gives exit status 0: with the connection established, a valid
    configuration and a hosted-zone id, the builder returns a batch, and
    when the service accepts that batch with a response carrying the
    change identifier and the response metadata, the run of [main] is the
    two connection calls, the submission and the output line, without
    any event of the waiter, and exits with status 0.  The same holds of
    every run whose trace shows such an accepted submission. *)
Theorem no_wait_when_not_requested
    (w : World) (environ : gmap string string) :
  (∀ s, environ !! "INPUT_AWS_ROUTE53_WAIT" = Some s →
        py_lower s ∉ ["true"; "1"; "yes"]) →
  (∀ id s, _wait w environ id s = (inr tt, s)) ∧
  (boto3_client w = None → get_waiter w = None →
   config_valid w environ = true →
   ∀ z, environ !! "INPUT_AWS_ROUTE53_HOSTED_ZONE_ID" = Some z → z ≠ "" →
   ∃ rs s2,
     _build_record_set w environ connected = (inr rs, s2) ∧
     ∀ d info id metadata,
       change_resource_record_sets w (VStr z) (VDict rs) = inr (VDict d) →
       d !! "ChangeInfo" = Some (VDict info) →
       info !! "Id" = Some id →
       d !! "ResponseMetadata" = Some metadata →
       main w environ
       = ([CallClient; CallGetWaiter; CallChange (VStr z) (VDict rs);
           Stdout (json_dumps w metadata +:+ newline)], 0)) ∧
  (∀ tr code zone batch d info id metadata,
     main w environ = (tr, code) →
     CallChange zone batch ∈ tr →
     change_resource_record_sets w zone batch = inr (VDict d) →
     d !! "ChangeInfo" = Some (VDict info) →
     info !! "Id" = Some id →
     d !! "ResponseMetadata" = Some metadata →
     code = 0 ∧
     Forall (λ ev, is_wait_event ev = false) tr ∧
     tr = [CallClient; CallGetWaiter; CallChange zone batch;
           Stdout (json_dumps w metadata +:+ newline)]).
Proof.
  intros Hflag. apply wait_requested_false in Hflag.
  assert (Hwait : ∀ id s, _wait w environ id s = (inr tt, s))
    by (intros id s; by rewrite wait_eq, Hflag).
  split; [exact Hwait |]. split.
  - intros Hc Hg Hvalid z Hz Hne.
    destruct (build_succeeds w environ connected Hvalid) as (rs & s2 & Hb).
    exists rs, s2. split; [exact Hb |].
    intros d info id metadata Hsub Hinfo Hid Hmd.
    assert (Ht : truthy (Some z) = true) by (by destruct z).
    rewrite main_eq, change_body_eq, Hc, Hg, Hb. cbv zeta.
    rewrite Hz, Ht. cbn [negb to_value]. rewrite Hsub.
    unfold _obtain_request_id, _obtain_marshalled_result, subscript.
    rewrite Hinfo, Hid, Hmd, Hwait.
    apply build_record_set_inv in Hb as (Htr & _).
    cbn [trace with_trace]. by rewrite Htr.
  - intros tr code zone batch d info id metadata Hmain Hin Hsub Hinfo Hid Hmd.
    destruct (submitted_inv _ _ _ _ _ _ Hmain Hin)
      as (rs & s2 & wevs & last & _ & _ & _ & -> & _ & _ & Hrest).
    cbv zeta in Hrest. rewrite Hsub in Hrest.
    unfold _obtain_request_id, _obtain_marshalled_result, subscript in Hrest.
    rewrite Hinfo, Hid, Hmd in Hrest.
    destruct Hrest as (r & Hr & Hlast). rewrite Hwait in Hr.
    injection Hr as <- Hs.
    assert (wevs = []) as ->.
    { rewrite <- (app_nil_r (trace s2 ++ _)) in Hs at 1.
      by apply app_inv_head in Hs. }
    destruct Hlast as [-> ->]. split_and!; [done | | done].
    repeat (apply List.Forall_cons; [reflexivity |]). apply List.Forall_nil.
Qed.

Lemma no_wait_when_not_requested_witness :
  (_wait sample_world (<["INPUT_AWS_ROUTE53_WAIT" := "false"]> sample_environ)
     (VStr "/change/C1") connected
   = (inr tt, connected)) ∧
  (_wait sample_world (<["INPUT_AWS_ROUTE53_WAIT" := ""]> sample_environ)
     (VStr "/change/C1") connected
   = (inr tt, connected)) ∧
  (∃ batch,
     main sample_world (<["INPUT_AWS_ROUTE53_WAIT" := "false"]> sample_environ)
     = ([CallClient; CallGetWaiter; CallChange (VStr "Z123") batch;
         Stdout (json_dumps sample_world
                   (VDict {[ "HTTPStatusCode" := VInt 200 ]}) +:+ newline)],
        0)) ∧
  (∃ batch,
     main sample_world sample_environ
     = ([CallClient; CallGetWaiter; CallChange (VStr "Z123") batch;
         Stdout (json_dumps sample_world
                   (VDict {[ "HTTPStatusCode" := VInt 200 ]}) +:+ newline)],
        0)).
Proof.
  assert (Hfalse : ∀ s,
            <["INPUT_AWS_ROUTE53_WAIT" := "false"]> sample_environ
              !! "INPUT_AWS_ROUTE53_WAIT" = Some s →
            py_lower s ∉ ["true"; "1"; "yes"]).
  { intros s Hs. vm_compute in Hs. injection Hs as <-.
    apply (bool_decide_unpack _). vm_compute. exact I. }
  assert (Hempty : ∀ s,
            <["INPUT_AWS_ROUTE53_WAIT" := ""]> sample_environ
              !! "INPUT_AWS_ROUTE53_WAIT" = Some s →
            py_lower s ∉ ["true"; "1"; "yes"]).
  { intros s Hs. vm_compute in Hs. injection Hs as <-.
    apply (bool_decide_unpack _). vm_compute. exact I. }
  assert (Habsent : ∀ s,
            sample_environ !! "INPUT_AWS_ROUTE53_WAIT" = Some s →
            py_lower s ∉ ["true"; "1"; "yes"]).
  { intros s Hs. vm_compute in Hs. discriminate Hs. }
  split_and!.
  - apply (proj1 (no_wait_when_not_requested sample_world _ Hfalse)).
  - apply (proj1 (no_wait_when_not_requested sample_world _ Hempty)).
  - destruct (proj1 (proj2 (no_wait_when_not_requested sample_world _ Hfalse))
                eq_refl eq_refl eq_refl "Z123" eq_refl ltac:(discriminate))
      as (rs & s2 & _ & Hrun).
    exists (VDict rs).
    apply (Hrun {[ "ChangeInfo" := VDict {[ "Id" := VStr "/change/C1";
                                            "Status" := VStr "PENDING" ]};
                   "ResponseMetadata" := VDict {[ "HTTPStatusCode" := VInt 200 ]} ]}
             {[ "Id" := VStr "/change/C1"; "Status" := VStr "PENDING" ]}
             (VStr "/change/C1") (VDict {[ "HTTPStatusCode" := VInt 200 ]}));
      reflexivity.
  - destruct (proj1 (proj2 (no_wait_when_not_requested sample_world _ Habsent))
                eq_refl eq_refl eq_refl "Z123" eq_refl ltac:(discriminate))
      as (rs & s2 & _ & Hrun).
    exists (VDict rs).
    apply (Hrun {[ "ChangeInfo" := VDict {[ "Id" := VStr "/change/C1";
                                            "Status" := VStr "PENDING" ]};
                   "ResponseMetadata" := VDict {[ "HTTPStatusCode" := VInt 200 ]} ]}
             {[ "Id" := VStr "/change/C1"; "Status" := VStr "PENDING" ]}
             (VStr "/change/C1") (VDict {[ "HTTPStatusCode" := VInt 200 ]}));
      reflexivity.
Defined.

(** ** Result extraction *)

(** C8. On a response without [ChangeInfo], or whose [ChangeInfo] has no
    [Id], [_obtain_request_id] raises [KeyError]; on a response without
    [ResponseMetadata], [_obtain_marshalled_result] raises [KeyError]:
    the UnexpectedResponseShape failure, no value being put in place of
    the missing one.  The failure is fatal: a run of [main] that received
    such a response exits with status 1 and writes nothing on standard
    output. *)
Theorem extraction_fails_on_missing_field
    (w : World) (d : gmap string value) :
  (d !! "ChangeInfo" = None →
   _obtain_request_id w (VDict d) = inl (KeyError "ChangeInfo")) ∧
  (∀ info, d !! "ChangeInfo" = Some (VDict info) → info !! "Id" = None →
   _obtain_request_id w (VDict d) = inl (KeyError "Id")) ∧
  (d !! "ResponseMetadata" = None →
   _obtain_marshalled_result w (VDict d) = inl (KeyError "ResponseMetadata")) ∧
  (∀ key, kind_of (KeyError key) = UnexpectedResponseShape) ∧
  (∀ environ tr code zone batch,
     main w environ = (tr, code) →
     CallChange zone batch ∈ tr →
     change_resource_record_sets w zone batch = inr (VDict d) →
     d !! "ChangeInfo" = None ∨
     (∃ info, d !! "ChangeInfo" = Some (VDict info) ∧ info !! "Id" = None) ∨
     d !! "ResponseMetadata" = None →
     code = 1 ∧ (∀ out, Stdout out ∉ tr) ∧
     ∃ e, List.last tr CallClient = fail_line e).
Proof.
  assert (H1 : d !! "ChangeInfo" = None →
               _obtain_request_id w (VDict d) = inl (KeyError "ChangeInfo")).
  { intros H. unfold _obtain_request_id, subscript. by rewrite H. }
  assert (H2 : ∀ info, d !! "ChangeInfo" = Some (VDict info) →
               info !! "Id" = None →
               _obtain_request_id w (VDict d) = inl (KeyError "Id")).
  { intros info H Hi. unfold _obtain_request_id, subscript. by rewrite H, Hi. }
  assert (H3 : d !! "ResponseMetadata" = None →
               _obtain_marshalled_result w (VDict d)
               = inl (KeyError "ResponseMetadata")).
  { intros H. unfold _obtain_marshalled_result, subscript. by rewrite H. }
  split_and!; [exact H1 | exact H2 | exact H3 | done |].
  intros environ tr code zone batch Hmain Hin Hsub Hmiss.
  destruct (submitted_inv _ _ _ _ _ _ Hmain Hin)
    as (rs & s2 & wevs & last & _ & _ & _ & -> & Hw & Hlast & Hrest).
  cbv zeta in Hrest. rewrite Hsub in Hrest.
  assert (Hfail : ∃ e, last = fail_line e ∧ code = 1).
  { destruct (_obtain_request_id w (VDict d)) as [e | request_id] eqn:Hid.
    - destruct Hrest as (_ & -> & ->). eauto.
    - destruct Hrest as (r & _ & Hr).
      destruct r as [[e | c] | []]; [destruct Hr; eauto | done |].
      destruct Hmiss as [Hm | [(info & Hm & Hi) | Hm]].
      + specialize (H1 Hm). discriminate H1.
      + specialize (H2 info Hm Hi). discriminate H2.
      + rewrite H3 in Hr by done. destruct Hr. eauto. }
  destruct Hfail as (e & -> & ->). split_and!; [done | |].
  - intros out Hout.
    rewrite !elem_of_app, !elem_of_cons, elem_of_nil in Hout.
    destruct Hout as [[Ho | [Ho | [Ho | []]]] | [Ho | [Ho | []]]];
      try discriminate Ho.
    rewrite Forall_forall in Hw. by apply Hw in Ho.
  - exists e. rewrite app_assoc. apply last_last.
Qed.

Lemma extraction_fails_on_missing_field_witness :
  _obtain_request_id sample_world (VDict ∅) = inl (KeyError "ChangeInfo") ∧
  _obtain_request_id sample_world (VDict {[ "ChangeInfo" := VDict ∅ ]})
  = inl (KeyError "Id") ∧
  _obtain_marshalled_result sample_world (VDict ∅)
  = inl (KeyError "ResponseMetadata").
Proof.
  split_and!.
  - apply (extraction_fails_on_missing_field sample_world ∅). reflexivity.
  - apply (proj1 (proj2 (extraction_fails_on_missing_field sample_world
                           {[ "ChangeInfo" := VDict ∅ ]})) ∅); reflexivity.
  - apply (extraction_fails_on_missing_field sample_world ∅). reflexivity.
Defined.

(** ** Required keys *)

Lemma action_ok_inv w environ :
  action_ok environ = true →
  truthy (environ !! "INPUT_AWS_ROUTE53_RR_ACTION") = true ∧
  _validate_action w (environ !! "INPUT_AWS_ROUTE53_RR_ACTION") = inr tt.
Proof.
  intros H. split; [| by apply validate_action_ok].
  eapply py_in_truthy; [exact H | apply empty_not_action].
Qed.

Lemma record_type_ok_inv w environ :
  record_type_ok environ = true →
  truthy (environ !! "INPUT_AWS_ROUTE53_RR_TYPE") = true ∧
  _validate_record_type w (environ !! "INPUT_AWS_ROUTE53_RR_TYPE") = inr tt.
Proof.
  intros H. split; [| by apply validate_record_type_ok].
  eapply py_in_truthy; [exact H | apply empty_not_record_type].
Qed.

(** A required key without a usable value makes the configuration
    invalid, or is the hosted-zone key. *)
Lemma falsy_key_invalid w environ k :
  truthy (environ !! key_name k) = false →
  config_valid w environ = false ∨
  truthy (environ !! "INPUT_AWS_ROUTE53_HOSTED_ZONE_ID") = false.
Proof.
  intros H. destruct k; cbn [key_name] in H; [| | | | by right]; left;
    unfold config_valid, name_ok, value_ok.
  - destruct (action_ok environ) eqn:Ha; [| done].
    apply (action_ok_inv w) in Ha as [Ha _]. congruence.
  - rewrite H. by rewrite andb_false_r.
  - destruct (record_type_ok environ) eqn:Ht; [| by rewrite andb_false_r].
    apply (record_type_ok_inv w) in Ht as [Ht _]. congruence.
  - rewrite H. by rewrite andb_false_r.
Qed.

(** The builder stops at the first required key that has no usable value
    when the checks before it pass. *)
Lemma build_stops_at_falsy_key w environ k s :
  k ≠ KHostedZoneId →
  truthy (environ !! key_name k) = false →
  checks_before w environ k = true →
  ∃ s', _build_record_set w environ s = (inl (Exc (NameError (missing_msg k))), s').
Proof.
  intros Hk Hf Hc.
  rewrite build_record_set_eq, set_base_changes_eq. cbv zeta.
  destruct k; cbn [key_name checks_before] in *; [| | | | done].
  - rewrite Hf. cbn [negb]. eauto.
  - apply (action_ok_inv w) in Hc as [-> ->]. rewrite Hf. cbn [negb]. eauto.
  - apply andb_true_iff in Hc as [Ha Hn].
    apply (action_ok_inv w) in Ha as [-> ->].
    unfold name_ok in Hn. rewrite Hn, Hf. cbn [negb]. eauto.
  - apply andb_true_iff in Hc as [Hc Httl].
    apply andb_true_iff in Hc as [Hc Ht].
    apply andb_true_iff in Hc as [Ha Hn].
    apply (action_ok_inv w) in Ha as [-> ->].
    apply (record_type_ok_inv w) in Ht as [-> ->].
    unfold name_ok in Hn. unfold ttl_ok in Httl. rewrite Hn. cbn [negb].
    destruct (_validate_ttl w _); [done |]. rewrite Hf. cbn [negb]. eauto.
Qed.

(** What the pipeline does when a required key is absent or empty. *)
Lemma falsy_required_key w environ k :
  truthy (environ !! key_name k) = false →
  _get_env environ (key_name k) true = inl (NameError (missing_msg k)) ∧
  (∀ tr code, main w environ = (tr, code) →
              code = 1 ∧ ∀ zone batch, CallChange zone batch ∉ tr) ∧
  (boto3_client w = None → get_waiter w = None →
   checks_before w environ k = true →
   (∃ s, change_body w environ __init__
         = (inl (Exc (NameError (missing_msg k))), s)) ∧
   main w environ
   = ([CallClient; CallGetWaiter; fail_line (NameError (missing_msg k))], 1)).
Proof.
  intros Hf. split_and!.
  - rewrite get_env_required. by rewrite Hf.
  - intros tr code Hmain.
    apply main_cases in Hmain
      as [(pre & e & -> & -> & Hpre & _)
         | (rs & s2 & wevs & last & Hb & Hz & _)].
    + split; [done |]. intros zone batch Hin.
      apply elem_of_app in Hin as [Hin | Hin].
      * rewrite Forall_forall in Hpre. by destruct (Hpre _ Hin).
      * by apply list_elem_of_singleton in Hin.
    + exfalso.
      apply build_record_set_inv in Hb as (_ & _ & _ & Hv & _).
      destruct (falsy_key_invalid w environ k Hf); congruence.
  - intros Hc Hg Hchecks.
    assert (Hbody : ∃ s, change_body w environ __init__
                         = (inl (Exc (NameError (missing_msg k))), s) ∧
                         trace s = [CallClient; CallGetWaiter]).
    { rewrite change_body_eq, Hc, Hg.
      assert (k = KHostedZoneId ∨ k ≠ KHostedZoneId) as [-> | Hk]
        by (destruct k; auto).
      - cbn [checks_before key_name] in *.
        destruct (build_succeeds w environ connected Hchecks)
          as (rs & s2 & Hb).
        rewrite Hb. cbv zeta. rewrite Hf. cbn [negb].
        apply build_record_set_inv in Hb as (Htr & _). eauto.
      - destruct (build_stops_at_falsy_key w environ k connected Hk Hf Hchecks)
          as (s' & Hb).
        rewrite Hb. apply build_record_set_inv in Hb as (Htr & _). eauto. }
    destruct Hbody as (s & Hbody & Htr). split; [eauto |].
    by rewrite main_eq, Hbody, Htr.
Qed.

(** An empty value of a required key is read exactly as an absent one. *)
Lemma build_empty_as_absent w environ k s :
  environ !! key_name k = Some "" →
  _build_record_set w (delete (key_name k) environ) s
  = _build_record_set w environ s.
Proof.
  intros He.
  rewrite !build_record_set_eq, !set_comment_eq, !set_base_changes_eq.
  cbv zeta.
  destruct k; cbn [key_name] in He |- *;
    rewrite ?lookup_delete_eq, ?lookup_delete_ne by done;
    rewrite ?He; cbn [truthy negb snd]; reflexivity.
Qed.

Lemma wait_empty_as_absent w environ k id s :
  _wait w (delete (key_name k) environ) id s = _wait w environ id s.
Proof.
  rewrite !wait_eq. unfold wait_requested.
  by destruct k; cbn [key_name]; rewrite lookup_delete_ne by done.
Qed.

Lemma main_empty_as_absent w environ k :
  environ !! key_name k = Some "" →
  main w (delete (key_name k) environ) = main w environ.
Proof.
  intros He. rewrite !main_eq, !change_body_eq.
  rewrite (build_empty_as_absent w environ k connected He).
  destruct (boto3_client w); [done |].
  destruct (get_waiter w); [done |].
  destruct (_build_record_set w environ connected) as [[x | rs] s2]; [done |].
  cbv zeta.
  assert (Hz : truthy (delete (key_name k) environ
                       !! "INPUT_AWS_ROUTE53_HOSTED_ZONE_ID")
               = truthy (environ !! "INPUT_AWS_ROUTE53_HOSTED_ZONE_ID") ∧
               (truthy (environ !! "INPUT_AWS_ROUTE53_HOSTED_ZONE_ID") = true →
                delete (key_name k) environ !! "INPUT_AWS_ROUTE53_HOSTED_ZONE_ID"
                = environ !! "INPUT_AWS_ROUTE53_HOSTED_ZONE_ID")).
  { destruct k; cbn [key_name] in He |- *;
      rewrite ?lookup_delete_eq, ?lookup_delete_ne by done; [done.. |].
    rewrite He. done. }
  destruct Hz as [Hz Hz']. rewrite Hz.
  destruct (truthy (environ !! "INPUT_AWS_ROUTE53_HOSTED_ZONE_ID")); [| done].
  rewrite Hz' by done. cbn [negb].
  destruct (change_resource_record_sets w _ _) as [e | result]; [done |].
  destruct (_obtain_request_id w result) as [e | request_id]; [done |].
  by rewrite wait_empty_as_absent.
Qed.

(** C9, as the code has it.  Reading an absent required key (action,
    name, record type, value or hosted-zone id) raises [NameError], the
    MissingConfiguration failure, whose kind differs from the InvalidInput
    kind of every [ValueError].  A run of [main] on such a configuration
    exits with status 1 and submits nothing.  The failure that the
    pipeline reports is that [NameError] when the connection was
    established and every check made before the key is read passes; the
    checks run in the order action present, action valid, name present,
    record type present, record type valid, TTL valid, value present,
    hosted-zone id present. *)
Theorem missing_required_key
    (w : World) (environ : gmap string string) (k : required_key) :
  environ !! key_name k = None →
  _get_env environ (key_name k) true = inl (NameError (missing_msg k)) ∧
  kind_of (NameError (missing_msg k)) = MissingConfiguration ∧
  (∀ msg, kind_of (NameError (missing_msg k)) ≠ kind_of (ValueError msg)) ∧
  (∀ tr code, main w environ = (tr, code) →
              code = 1 ∧ ∀ zone batch, CallChange zone batch ∉ tr) ∧
  (boto3_client w = None → get_waiter w = None →
   checks_before w environ k = true →
   (∃ s, change_body w environ __init__
         = (inl (Exc (NameError (missing_msg k))), s)) ∧
   main w environ
   = ([CallClient; CallGetWaiter; fail_line (NameError (missing_msg k))], 1)).
Proof.
  intros Habs.
  assert (Hf : truthy (environ !! key_name k) = false) by (by rewrite Habs).
  destruct (falsy_required_key w environ k Hf) as (Hget & Hmain & Hfirst).
  split_and!; [done | done | discriminate | done | done].
Qed.

Lemma missing_required_key_witness :
  let environ := delete "INPUT_AWS_ROUTE53_RR_VALUE" sample_environ in
  main sample_world environ
  = ([CallClient; CallGetWaiter; fail_line (NameError (missing_msg KValue))], 1).
Proof.
  intros environ.
  apply (missing_required_key sample_world environ KValue); reflexivity.
Defined.

(** The claim C9 as written fails: with the name absent and an action
    that is present but not supported, the pipeline reports the
    [ValueError] of the action check, an InvalidInput failure. *)
Lemma missing_required_key_counterexample :
  let environ :=
    delete "INPUT_AWS_ROUTE53_RR_NAME"
      (<["INPUT_AWS_ROUTE53_RR_ACTION" := "BOGUS"]> sample_environ) in
  environ !! key_name KName = None ∧
  ∃ msg s,
    change_body sample_world environ __init__ = (inl (Exc (ValueError msg)), s) ∧
    kind_of (ValueError msg) = InvalidInput ∧
    kind_of (ValueError msg) ≠ MissingConfiguration.
Proof.
  intros environ. split; [reflexivity |].
  eexists _, _. split; [vm_compute; reflexivity |].
  split; [reflexivity | discriminate].
Qed.

(** C10, as the code has it.  A required key whose value is the empty
    string is read exactly as an absent key: reading it raises the same
    [NameError] (MissingConfiguration), the builder and the whole run of
    [main] are those of the configuration without the key, so that the
    empty value reaches no validator.  The run exits with status 1 and
    submits nothing.  The failure that the pipeline reports is that
    [NameError] when the connection was established and every check made
    before the key is read passes, which is always so for the action key,
    the first to be read. *)
Theorem empty_required_key
    (w : World) (environ : gmap string string) (k : required_key) :
  environ !! key_name k = Some "" →
  _get_env environ (key_name k) true = inl (NameError (missing_msg k)) ∧
  _get_env environ (key_name k) true
  = _get_env (delete (key_name k) environ) (key_name k) true ∧
  kind_of (NameError (missing_msg k)) = MissingConfiguration ∧
  (∀ msg, kind_of (NameError (missing_msg k)) ≠ kind_of (ValueError msg)) ∧
  (∀ s, _build_record_set w environ s
        = _build_record_set w (delete (key_name k) environ) s) ∧
  main w environ = main w (delete (key_name k) environ) ∧
  (∀ tr code, main w environ = (tr, code) →
              code = 1 ∧ ∀ zone batch, CallChange zone batch ∉ tr) ∧
  (boto3_client w = None → get_waiter w = None →
   checks_before w environ k = true →
   (∃ s, change_body w environ __init__
         = (inl (Exc (NameError (missing_msg k))), s)) ∧
   main w environ
   = ([CallClient; CallGetWaiter; fail_line (NameError (missing_msg k))], 1)).
Proof.
  intros Hempty.
  assert (Hf : truthy (environ !! key_name k) = false) by (by rewrite Hempty).
  destruct (falsy_required_key w environ k Hf) as (Hget & Hmain & Hfirst).
  split_and!; [done | | done | discriminate | | | done | done].
  - rewrite Hget, get_env_required, lookup_delete_eq. done.
  - intros s. symmetry. by apply build_empty_as_absent.
  - symmetry. by apply main_empty_as_absent.
Qed.

Lemma empty_required_key_witness :
  let environ := <["INPUT_AWS_ROUTE53_RR_ACTION" := ""]> sample_environ in
  main sample_world environ
  = ([CallClient; CallGetWaiter; fail_line (NameError (missing_msg KAction))], 1).
Proof.
  intros environ.
  apply (empty_required_key sample_world environ KAction); reflexivity.
Defined.

(** The claim C10 as written fails: with an empty name and an action
    that is present but not supported, the pipeline reports the
    [ValueError] of the action check and not the missing-configuration
    failure. *)
Lemma empty_required_key_counterexample :
  let environ :=
    <["INPUT_AWS_ROUTE53_RR_NAME" := ""]>
      (<["INPUT_AWS_ROUTE53_RR_ACTION" := "BOGUS"]> sample_environ) in
  environ !! key_name KName = Some "" ∧
  ∃ msg s,
    change_body sample_world environ __init__ = (inl (Exc (ValueError msg)), s) ∧
    kind_of (ValueError msg) = InvalidInput ∧
    kind_of (ValueError msg) ≠ MissingConfiguration.
Proof.
  intros environ. split; [reflexivity |].
  eexists _, _. split; [vm_compute; reflexivity |].
  split; [reflexivity | discriminate].
Qed.

(** ** Runs on the sample service *)

Example run_without_wait :
  ∃ batch,
    main sample_world sample_environ
    = ([CallClient; CallGetWaiter; CallChange (VStr "Z123") batch;
        Stdout ("{ ... }" +:+ newline)], 0).
Proof. eexists. vm_compute. reflexivity. Qed.

Example run_with_wait :
  let tr := (main sample_world
               (<["INPUT_AWS_ROUTE53_WAIT" := "True"]> sample_environ)).1 in
  polls tr = 4%nat ∧
  (main sample_world
     (<["INPUT_AWS_ROUTE53_WAIT" := "True"]> sample_environ)).2 = 0.
Proof. split; vm_compute; reflexivity. Qed.

Example run_with_timeout :
  let environ := <["INPUT_AWS_ROUTE53_WAIT" := "1"]> sample_environ in
  polls (main pending_world environ).1 = 50%nat ∧
  (main pending_world environ).2 = 1 ∧
  List.last (main pending_world environ).1 CallClient
  = fail_line (WaiterError "Max attempts exceeded").
Proof. split_and!; vm_compute; reflexivity. Qed.

(** * Further properties of the code *)

(** ** [_connect] *)

Lemma connect_noop w s : client s = true → _connect w s = (inr tt, s).
Proof. intros Hc. unfold _connect, bind, get_state. by rewrite Hc. Qed.

(** X1. Connecting twice in a row is connecting once: the second call
    finds the client and calls nobody, so that the client is created at
    most once. *)
Theorem connect_twice (w : World) (s : state) :
  (let* _ := _connect w in _connect w) s = _connect w s.
Proof.
  unfold bind at 1.
  destruct (_connect w s) as [[x | []] s1] eqn:Hfirst; [done |].
  destruct (client s) eqn:Hc.
  - rewrite connect_noop in Hfirst by done. injection Hfirst as <-.
    by apply connect_noop.
  - apply connect_noop.
    unfold _connect, bind, get_state in Hfirst. rewrite Hc in Hfirst.
    cbn [negb] in Hfirst. rewrite try_except_reraise in Hfirst.
    unfold bind, emit, set_client, set_waiter in Hfirst.
    destruct (boto3_client w); [discriminate Hfirst |].
    destruct (get_waiter w); [discriminate Hfirst |].
    by injection Hfirst as <-.
Qed.

(** X2. When the client is created but its waiter cannot be obtained,
    [_connect] raises and leaves the object with a client and no waiter.
    A later [_connect] on that object succeeds without any call and
    without a waiter, and a requested wait then raises [AttributeError]
    without any call. *)
Theorem connect_keeps_missing_waiter (w : World) (e : exn) :
  boto3_client w = None →
  get_waiter w = Some e →
  ∃ s1,
    _connect w __init__ = (inl (Exc e), s1) ∧
    trace s1 = [CallClient; CallGetWaiter] ∧
    client s1 = true ∧ waiter s1 = false ∧
    _connect w s1 = (inr tt, s1) ∧
    ∀ environ id,
      wait_requested environ = true →
      ∃ msg, _wait w environ id s1 = (inl (Exc (AttributeError msg)), s1).
Proof.
  intros Hc Hg. rewrite connect_init_eq, Hc, Hg.
  eexists. split_and!; [reflexivity | done | done | done | by apply connect_noop |].
  intros environ id Hreq. rewrite wait_eq, Hreq. cbn [waiter]. eauto.
Qed.

Lemma connect_keeps_missing_waiter_witness :
  ∃ s1,
    _connect no_waiter_world __init__
    = (inl (Exc (ValueError "Waiter does not exist")), s1) ∧
    waiter s1 = false ∧
    _connect no_waiter_world s1 = (inr tt, s1).
Proof.
  destruct (connect_keeps_missing_waiter no_waiter_world
              (ValueError "Waiter does not exist") eq_refl eq_refl)
    as (s1 & H1 & _ & _ & H2 & H3 & _).
  exists s1. split_and!; assumption.
Defined.

(** ** [_validate_ttl] *)

Lemma validate_ttl_range w ttl n :
  _validate_ttl w ttl = inr n → 0 ≤ n ≤ 2147483647.
Proof.
  unfold _validate_ttl, try_except, int_call.
  destruct (truthy ttl).
  - destruct ttl as [s |]; [| discriminate].
    destruct (py_int w s) as [m |]; [| discriminate].
    destruct ((m <? 0) || (m >? 2147483647)) eqn:Hb; [discriminate |].
    intros [= <-]. apply orb_false_iff in Hb as [Hlo Hhi]. lia.
  - cbn. intros [= <-]. unfold DEFAULT_TTL. lia.
Qed.

Lemma validate_ttl_falsy w ttl :
  truthy ttl = false → _validate_ttl w ttl = inr 300.
Proof. intros Hf. unfold _validate_ttl. by rewrite Hf. Qed.

(** X3. Whatever its argument, [_validate_ttl] either returns an integer
    within [0, 2147483647] or raises a [ValueError]; no other exception
    leaves it. *)
Theorem validate_ttl_result (w : World) (ttl : option string) :
  (∀ n, _validate_ttl w ttl = inr n → 0 ≤ n ≤ 2147483647) ∧
  (∀ e, _validate_ttl w ttl = inl e → ∃ msg, e = ValueError msg).
Proof.
  split; [intros n; apply validate_ttl_range | intros e; apply validate_ttl_fail].
Qed.

Lemma validate_ttl_result_witness :
  0 ≤ 86400 ≤ 2147483647 ∧
  ∃ msg, ValueError ("Invalid TTL value '4294967296': "
                     +:+ "TTL must be between 0 and 2147483647")
         = ValueError msg.
Proof.
  split.
  - apply (proj1 (validate_ttl_result sample_world (Some "86400")) 86400).
    reflexivity.
  - apply (proj2 (validate_ttl_result sample_world (Some "4294967296"))).
    reflexivity.
Defined.

Lemma skip_spaces_all_blank cs :
  forallb is_c_space cs = true → skip_spaces cs = [].
Proof.
  induction cs as [| c r IH]; [done |]. cbn [forallb skip_spaces].
  intros H. apply andb_true_iff in H as [-> Hr]. by apply IH.
Qed.

Lemma blank_is_ascii c : is_c_space c = true → is_ascii_char c = true.
Proof.
  unfold is_c_space, is_ascii_char. intros H.
  apply orb_true_iff in H as [H | H].
  - apply andb_true_iff in H as [_ H]. apply N.leb_le in H.
    apply N.ltb_lt. lia.
  - apply N.eqb_eq in H. apply N.ltb_lt. lia.
Qed.

Lemma all_blank_ascii cs :
  forallb is_c_space cs = true → forallb is_ascii_char cs = true.
Proof.
  induction cs as [| c r IH]; [done |]. cbn [forallb].
  intros H. apply andb_true_iff in H as [Hc Hr].
  by rewrite (blank_is_ascii c Hc), IH.
Qed.

Lemma py_int_all_blank w s : all_blank s = true → py_int w s = None.
Proof.
  unfold all_blank, py_int. intros H.
  by rewrite (all_blank_ascii _ H), (skip_spaces_all_blank _ H).
Qed.

(** X4. A TTL that is not empty but consists of blanks only is not given
    the default: it is rejected with a [ValueError], while the empty
    string gives 300. *)
Theorem validate_ttl_blank (w : World) (s : string) :
  s ≠ "" →
  all_blank s = true →
  _validate_ttl w (Some "") = inr 300 ∧
  _validate_ttl w (Some s)
  = inl (ValueError ("Invalid TTL value '" +:+ s +:+ "': "
                     +:+ int_error_text w s)).
Proof.
  intros Hne Hb. split; [reflexivity |].
  assert (Hs : truthy (Some s) = true) by (by destruct s).
  unfold _validate_ttl, try_except, int_call.
  by rewrite Hs, (py_int_all_blank w s Hb).
Qed.

Lemma validate_ttl_blank_witness :
  _validate_ttl sample_world (Some "") = inr 300 ∧
  _validate_ttl sample_world (Some "  ")
  = inl (ValueError ("Invalid TTL value '" +:+ "  " +:+ "': "
                     +:+ int_error_text sample_world "  ")).
Proof.
  apply (validate_ttl_blank sample_world "  "); [discriminate | reflexivity].
Defined.

(** X5. The message of a rejected TTL: an out-of-range value is reported
    with the text of the range check wrapped by the handler of the same
    function, an unparsable one with the text that [int] gave. *)
Theorem validate_ttl_messages (w : World) (s : string) :
  s ≠ "" →
  (∀ n, py_int w s = Some n → ¬ (0 ≤ n ≤ 2147483647) →
        _validate_ttl w (Some s)
        = inl (ValueError ("Invalid TTL value '" +:+ s +:+ "': "
                           +:+ "TTL must be between 0 and 2147483647"))) ∧
  (py_int w s = None →
   _validate_ttl w (Some s)
   = inl (ValueError ("Invalid TTL value '" +:+ s +:+ "': "
                      +:+ int_error_text w s))).
Proof.
  intros Hne.
  assert (Hs : truthy (Some s) = true) by (by destruct s).
  unfold _validate_ttl, try_except, int_call. rewrite Hs. split.
  - intros n -> Hout.
    destruct ((n <? 0) || (n >? 2147483647)) eqn:Hb; [done |].
    apply orb_false_iff in Hb as [Hlo Hhi]. lia.
  - by intros ->.
Qed.

Lemma validate_ttl_messages_witness :
  _validate_ttl sample_world (Some "-1")
  = inl (ValueError ("Invalid TTL value '" +:+ "-1" +:+ "': "
                     +:+ "TTL must be between 0 and 2147483647")) ∧
  _validate_ttl sample_world (Some "5m")
  = inl (ValueError ("Invalid TTL value '" +:+ "5m" +:+ "': "
                     +:+ int_error_text sample_world "5m")).
Proof.
  split.
  - apply (proj1 (validate_ttl_messages sample_world "-1" ltac:(discriminate))
             (-1)); [reflexivity | lia].
  - apply (proj2 (validate_ttl_messages sample_world "5m" ltac:(discriminate))).
    reflexivity.
Defined.

(** ** [_get_env] *)

(** X6. In required mode [_get_env] returns exactly when the variable is
    set to a non-empty string, and then returns that string, so that its
    callers never receive [None] or the empty string; in optional mode it
    never raises and hands the entry on as it is, the empty string
    included. *)
Theorem get_env_contract (environ : gmap string string) (variable : string) :
  (∀ v, _get_env environ variable true = inr v ↔
        ∃ s, environ !! variable = Some s ∧ s ≠ "" ∧ v = Some s) ∧
  (∀ e, _get_env environ variable true = inl e →
        truthy (environ !! variable) = false ∧
        e = NameError ("Cannot find environment variable: " +:+ variable)) ∧
  _get_env environ variable false = inr (environ !! variable).
Proof.
  rewrite get_env_required, get_env_optional.
  split_and!; [| | done].
  - intros v. destruct (environ !! variable) as [[| c s] |]; cbn [truthy].
    + split; [discriminate | by intros (s & [= <-] & Hne & _)].
    + split.
      * intros [= <-]. by exists (String c s).
      * by intros (s' & [= <-] & _ & ->).
    + split; [discriminate | by intros (s & H & _)].
  - intros e. by destruct (truthy (environ !! variable)); intros [= <-].
Qed.

Lemma get_env_contract_witness :
  _get_env sample_environ "INPUT_AWS_ROUTE53_RR_NAME" true
  = inr (Some "example.com") ∧
  truthy (sample_environ !! "INPUT_AWS_ROUTE53_RR_TTL") = false.
Proof.
  split.
  - apply (proj1 (get_env_contract sample_environ "INPUT_AWS_ROUTE53_RR_NAME")).
    exists "example.com". split_and!; [reflexivity | discriminate | reflexivity].
  - apply (proj1 (proj2 (get_env_contract sample_environ
                           "INPUT_AWS_ROUTE53_RR_TTL"))
             (NameError ("Cannot find environment variable: "
                         +:+ "INPUT_AWS_ROUTE53_RR_TTL"))).
    reflexivity.
Defined.

(** ** The request builder, in general *)

(** X7. On a fresh object the batch that the builder returns has the
    comment of the configuration under [Comment] when that comment is a
    non-empty string, and no [Comment] key when the comment is absent or
    empty. *)
Theorem build_comment (w : World) (environ : gmap string string)
    (rs : gmap string value) (s' : state) :
  _build_record_set w environ __init__ = (inr rs, s') →
  rs !! "Comment" =
  match environ !! "INPUT_AWS_ROUTE53_RR_COMMENT" with
  | None | Some "" => None
  | Some comment => Some (VStr comment)
  end.
Proof.
  intros Hb. apply build_record_set_inv in Hb as (_ & _ & _ & _ & c & ->).
  rewrite lookup_insert_ne by done. rewrite set_comment_eq.
  destruct (environ !! "INPUT_AWS_ROUTE53_RR_COMMENT") as [[| a r] |];
    cbn [truthy snd rr_skeleton to_value __init__]; [done | | done].
  apply lookup_insert_eq.
Qed.

Lemma build_comment_witness :
  ∃ rs s',
    _build_record_set sample_world
      (<["INPUT_AWS_ROUTE53_RR_COMMENT" := "rotate key"]> sample_environ)
      __init__ = (inr rs, s') ∧
    rs !! "Comment" = Some (VStr "rotate key").
Proof.
  destruct (_build_record_set sample_world
              (<["INPUT_AWS_ROUTE53_RR_COMMENT" := "rotate key"]> sample_environ)
              __init__) as [[x | rs] s'] eqn:Hb.
  - vm_compute in Hb. discriminate Hb.
  - exists rs, s'. split; [reflexivity |].
    apply (build_comment sample_world _ rs s' Hb).
Defined.

(** X8. The one entry of a built batch carries the configuration as it
    is: the action, a member of the supported actions; the name; the
    record type, a member of the supported types; the value; and the TTL
    that [_validate_ttl] returned, which lies within [0, 2147483647] and
    is 300 when the TTL variable is absent or empty. *)
Theorem build_entry_content (w : World) (environ : gmap string string)
    (s : state) (rs : gmap string value) (s' : state) :
  _build_record_set w environ s = (inr rs, s') →
  ∃ action name record_type value ttl,
    environ !! "INPUT_AWS_ROUTE53_RR_ACTION" = Some action ∧
    action ∈ SUPPORTED_ACTIONS ∧
    environ !! "INPUT_AWS_ROUTE53_RR_NAME" = Some name ∧ name ≠ "" ∧
    environ !! "INPUT_AWS_ROUTE53_RR_TYPE" = Some record_type ∧
    record_type ∈ SUPPORTED_RECORD_TYPES ∧
    environ !! "INPUT_AWS_ROUTE53_RR_VALUE" = Some value ∧ value ≠ "" ∧
    _validate_ttl w (environ !! "INPUT_AWS_ROUTE53_RR_TTL") = inr ttl ∧
    0 ≤ ttl ≤ 2147483647 ∧
    (truthy (environ !! "INPUT_AWS_ROUTE53_RR_TTL") = false → ttl = 300) ∧
    rs !! "Changes" =
    Some (VList [VDict {[
       "Action" := VStr action;
       "ResourceRecordSet" := VDict {[
          "Name" := VStr name;
          "Type" := VStr record_type;
          "TTL" := VInt ttl;
          "ResourceRecords" := VList [VDict {[ "Value" := VStr value ]}]
       ]}
    ]}]).
Proof.
  rewrite build_record_set_eq, set_base_changes_eq. cbv zeta.
  destruct (environ !! "INPUT_AWS_ROUTE53_RR_ACTION") as [action |] eqn:Ha;
    [| discriminate].
  destruct (truthy (Some action)); [| discriminate]. cbn [negb].
  destruct (py_in (Some action) SUPPORTED_ACTIONS) eqn:Hact.
  2: { destruct (validate_action_fail w _ Hact) as [msg ->]. discriminate. }
  rewrite (validate_action_ok w _ Hact).
  destruct (environ !! "INPUT_AWS_ROUTE53_RR_NAME") as [name |] eqn:Hn;
    [| discriminate].
  destruct (truthy (Some name)) eqn:Hname; [| discriminate]. cbn [negb].
  destruct (environ !! "INPUT_AWS_ROUTE53_RR_TYPE") as [record_type |] eqn:Ht;
    [| discriminate].
  destruct (truthy (Some record_type)); [| discriminate]. cbn [negb].
  destruct (py_in (Some record_type) SUPPORTED_RECORD_TYPES) eqn:Htype.
  2: { destruct (validate_record_type_fail w _ Htype) as [msg ->].
       discriminate. }
  rewrite (validate_record_type_ok w _ Htype).
  destruct (_validate_ttl w (environ !! "INPUT_AWS_ROUTE53_RR_TTL"))
    as [e | ttl] eqn:Httl; [discriminate |].
  destruct (environ !! "INPUT_AWS_ROUTE53_RR_VALUE") as [value |] eqn:Hv;
    [| discriminate].
  destruct (truthy (Some value)) eqn:Hvalue; [| discriminate]. cbn [negb].
  unfold set_skeleton. intros [= <- <-].
  exists action, name, record_type, value, ttl.
  pose proof (validate_ttl_range _ _ _ Httl) as Hrange.
  split_and!; try done; try lia.
  - by apply bool_decide_eq_true in Hact.
  - by intros ->.
  - by apply bool_decide_eq_true in Htype.
  - by intros ->.
  - intros Hf. rewrite validate_ttl_falsy in Httl by done.
    by injection Httl as <-.
  - cbn [rr_skeleton to_value]. apply lookup_insert_eq.
Qed.

Lemma build_entry_content_witness :
  ∃ rs s' ttl,
    _build_record_set sample_world
      (<["INPUT_AWS_ROUTE53_RR_TTL" := "60"]> sample_environ) __init__
    = (inr rs, s') ∧
    _validate_ttl sample_world (Some "60") = inr ttl ∧
    0 ≤ ttl ≤ 2147483647.
Proof.
  destruct (_build_record_set sample_world
              (<["INPUT_AWS_ROUTE53_RR_TTL" := "60"]> sample_environ) __init__)
    as [[x | rs] s'] eqn:Hb.
  - vm_compute in Hb. discriminate Hb.
  - destruct (build_entry_content sample_world _ __init__ rs s' Hb)
      as (action & name & record_type & value & ttl & _ & _ & _ & _ & _ & _
          & _ & _ & Httl & Hrange & _).
    exists rs, s', ttl. split; [reflexivity |]. split; [exact Httl | exact Hrange].
Defined.

(** X9. The builder writes the keys [Changes] and [Comment] of the
    skeleton and no other, and writes [Comment] only for a non-empty
    comment: every other key of the returned batch, and [Comment] itself
    when the configuration has no comment, is as it was in the object
    before the call.  The returned batch is the skeleton that the object
    keeps. *)
Theorem build_frame (w : World) (environ : gmap string string)
    (s : state) (rs : gmap string value) (s' : state) :
  _build_record_set w environ s = (inr rs, s') →
  rr_skeleton s' = rs ∧
  (∀ key, key ≠ "Changes" → key ≠ "Comment" →
          rs !! key = rr_skeleton s !! key) ∧
  (truthy (environ !! "INPUT_AWS_ROUTE53_RR_COMMENT") = false →
   rs !! "Comment" = rr_skeleton s !! "Comment") ∧
  (rr_skeleton s = ∅ → dom rs ⊆ ({[ "Changes"; "Comment" ]} : gset string)).
Proof.
  intros Hb.
  assert (Hs' : rr_skeleton s' = rs).
  { rewrite build_record_set_eq in Hb.
    destruct (_set_base_changes w environ _) as [[x | []] s2];
      [discriminate Hb |]. by injection Hb as <- <-. }
  apply build_record_set_inv in Hb as (_ & _ & _ & _ & c & ->).
  split; [exact Hs' |]. clear Hs'.
  rewrite set_comment_eq. cbn [snd].
  split_and!.
  - intros key Hk1 Hk2. rewrite lookup_insert_ne by done.
    destruct (truthy _); [| done]. cbn [rr_skeleton].
    by rewrite lookup_insert_ne.
  - intros ->. by rewrite lookup_insert_ne.
  - intros He. rewrite dom_insert.
    destruct (truthy _); cbn [rr_skeleton]; rewrite He.
    + rewrite dom_insert, dom_empty. intros k.
      rewrite !elem_of_union, !elem_of_singleton, elem_of_empty. tauto.
    + rewrite dom_empty. intros k.
      rewrite !elem_of_union, !elem_of_singleton, elem_of_empty. tauto.
Qed.

Lemma build_frame_witness :
  let s := {| client := true; waiter := true;
              rr_skeleton := {[ "Comment" := VStr "earlier" ]};
              trace := [] |} in
  ∃ rs s',
    _build_record_set sample_world sample_environ s = (inr rs, s') ∧
    rs !! "Comment" = Some (VStr "earlier").
Proof.
  intros s.
  destruct (_build_record_set sample_world sample_environ s)
    as [[x | rs] s'] eqn:Hb.
  - vm_compute in Hb. discriminate Hb.
  - exists rs, s'. split; [reflexivity |].
    destruct (build_frame sample_world sample_environ s rs s' Hb)
      as (_ & _ & Hc & _).
    rewrite Hc; reflexivity.
Defined.

(** A failing [_set_base_changes] leaves the object as it found it. *)
Lemma set_base_changes_fail_state w environ s x s' :
  _set_base_changes w environ s = (inl x, s') → s' = s.
Proof.
  rewrite set_base_changes_eq. cbv zeta.
  repeat match goal with
         | |- (if ?b then _ else _) = _ → _ => destruct b
         | |- match ?r with inl _ => _ | inr _ => _ end = _ → _ => destruct r
         end;
    unfold set_skeleton; intros H; by inversion H.
Qed.

(** X10. A build that fails has called nobody and has not touched
    [Changes], but the comment, which is stored first, is already in the
    skeleton when the configuration has a non-empty one. *)
Theorem build_failure_state (w : World) (environ : gmap string string)
    (s : state) (x : raised) (s' : state) :
  _build_record_set w environ s = (inl x, s') →
  trace s' = trace s ∧
  rr_skeleton s' !! "Changes" = rr_skeleton s !! "Changes" ∧
  rr_skeleton s' !! "Comment" =
  match environ !! "INPUT_AWS_ROUTE53_RR_COMMENT" with
  | None | Some "" => rr_skeleton s !! "Comment"
  | Some comment => Some (VStr comment)
  end.
Proof.
  intros Hb. pose proof Hb as Hinv.
  apply build_record_set_inv in Hinv as (Htr & _).
  split; [done |].
  rewrite build_record_set_eq in Hb.
  destruct (_set_base_changes w environ _) as [[y | []] s2] eqn:Hbase;
    [| discriminate Hb].
  injection Hb as -> ->.
  apply set_base_changes_fail_state in Hbase as Hs'.
  rewrite set_comment_eq in Hs'. cbn [snd] in Hs'.
  rewrite Hs'.
  destruct (environ !! "INPUT_AWS_ROUTE53_RR_COMMENT") as [[| a r] |];
    cbn [truthy rr_skeleton to_value]; [done | | done].
  split; [by rewrite lookup_insert_ne | apply lookup_insert_eq].
Qed.

Lemma build_failure_state_witness :
  let environ :=
    <["INPUT_AWS_ROUTE53_RR_COMMENT" := "note"]>
      (<["INPUT_AWS_ROUTE53_RR_TYPE" := "ALIAS"]> sample_environ) in
  ∃ x s',
    _build_record_set sample_world environ __init__ = (inl x, s') ∧
    rr_skeleton s' !! "Changes" = None ∧
    rr_skeleton s' !! "Comment" = Some (VStr "note").
Proof.
  intros environ.
  destruct (_build_record_set sample_world environ __init__)
    as [[x | rs] s'] eqn:Hb.
  - exists x, s'. split; [reflexivity |].
    destruct (build_failure_state sample_world environ __init__ x s' Hb)
      as (_ & Hch & Hco).
    split; [exact Hch | exact Hco].
  - vm_compute in Hb. discriminate Hb.
Defined.

(** ** [_change_record_set] *)

(** X11. With a client and a non-empty hosted-zone id, the submitter
    makes exactly one call, with the zone id and the batch as they are,
    and hands on what the service answered or raised, of whatever class,
    unchanged.  Without a hosted-zone id it raises [NameError] and makes
    no call; without a client it raises [AttributeError] and makes no
    call. *)
Theorem change_record_set_propagates (w : World)
    (environ : gmap string string) (rs : gmap string value) (s : state) :
  (client s = true →
   ∀ z, environ !! "INPUT_AWS_ROUTE53_HOSTED_ZONE_ID" = Some z → z ≠ "" →
        _change_record_set w environ rs s =
        (match change_resource_record_sets w (VStr z) (VDict rs) with
         | inl e => inl (Exc e)
         | inr result => inr result
         end,
         with_trace s [CallChange (VStr z) (VDict rs)])) ∧
  (truthy (environ !! "INPUT_AWS_ROUTE53_HOSTED_ZONE_ID") = false →
   _change_record_set w environ rs s =
   (inl (Exc (NameError (missing_msg KHostedZoneId))), s)) ∧
  (client s = false →
   truthy (environ !! "INPUT_AWS_ROUTE53_HOSTED_ZONE_ID") = true →
   ∃ msg, _change_record_set w environ rs s
          = (inl (Exc (AttributeError msg)), s)).
Proof.
  split_and!.
  - intros Hc z Hz Hne. rewrite change_record_set_eq by done. cbv zeta.
    rewrite Hz. assert (truthy (Some z) = true) as -> by (by destruct z).
    cbn [negb to_value]. by destruct (change_resource_record_sets w _ _).
  - intros Hf. unfold _change_record_set, bind.
    rewrite get_env_required, Hf. reflexivity.
  - intros Hc Ht. unfold _change_record_set, bind.
    rewrite get_env_required, Ht. cbn [lift ret].
    rewrite try_except_reraise. unfold bind, get_state. rewrite Hc. eauto.
Qed.

Lemma change_record_set_propagates_witness :
  _change_record_set rejecting_world sample_environ ∅ connected =
  (inl (Exc (ClientError "AccessDenied")),
   with_trace connected [CallChange (VStr "Z123") (VDict ∅)]).
Proof.
  apply (proj1 (change_record_set_propagates rejecting_world sample_environ
                  ∅ connected) eq_refl "Z123"); [reflexivity | discriminate].
Defined.

(** ** Runs of [main] *)

Lemma main_connect_failure w environ :
  (∀ e, boto3_client w = Some e →
        main w environ = ([CallClient; fail_line e], 1)) ∧
  (∀ e, boto3_client w = None → get_waiter w = Some e →
        main w environ = ([CallClient; CallGetWaiter; fail_line e], 1)).
Proof.
  split.
  - intros e He. by rewrite main_eq, change_body_eq, He.
  - intros e Hc He. by rewrite main_eq, change_body_eq, Hc, He.
Qed.

(** X12. The connection comes first: when the client or its waiter
    cannot be created, the run consists of the connection calls made so
    far and the error line, with exit status 1, whatever the
    configuration is; a faulty configuration is then not reported. *)
Theorem connection_failure_first (w : World) (environ : gmap string string) :
  (∀ e, boto3_client w = Some e →
        main w environ = ([CallClient; fail_line e], 1)) ∧
  (∀ e, boto3_client w = None → get_waiter w = Some e →
        main w environ = ([CallClient; CallGetWaiter; fail_line e], 1)).
Proof. apply main_connect_failure. Qed.

Lemma connection_failure_first_witness :
  main no_client_world ∅
  = ([CallClient; fail_line (OtherError "NoCredentialsError")], 1) ∧
  main no_waiter_world sample_environ
  = ([CallClient; CallGetWaiter;
      fail_line (ValueError "Waiter does not exist")], 1).
Proof.
  split.
  - apply (proj1 (connection_failure_first no_client_world ∅)). reflexivity.
  - apply (proj2 (connection_failure_first no_waiter_world sample_environ));
      reflexivity.
Defined.

Lemma submissions_app a b : submissions (a ++ b) = (submissions a + submissions b)%nat.
Proof. unfold submissions. by rewrite List.filter_app, List.length_app. Qed.

Lemma submissions_wait_events evs :
  Forall (λ ev, is_wait_event ev = true) evs → submissions evs = 0%nat.
Proof.
  induction 1 as [| ev evs Hev _ IH]; [done |].
  unfold submissions in *. cbn [List.filter].
  by destruct ev; try discriminate Hev.
Qed.

Lemma wait_events_not_output evs :
  Forall (λ ev, is_wait_event ev = true) evs →
  Forall (λ ev, is_output ev = false) evs.
Proof.
  intros H. eapply Forall_impl; [exact H |]. by intros [] Hev.
Qed.

(** The shape of every trace of [main]: the client call, then calls that
    are not output with at most one submission among them, then one line
    of output that fits the exit status. *)
Lemma main_shape w environ tr code :
  main w environ = (tr, code) →
  ∃ mid last,
    tr = CallClient :: mid ++ [last] ∧
    Forall (λ ev, is_output ev = false) mid ∧
    (submissions mid ≤ 1)%nat ∧
    ((code = 0 ∧ ∃ out, last = Stdout out) ∨
     (code = 1 ∧ ∃ e, last = fail_line e)).
Proof.
  intros Hmain.
  destruct (main_connect_failure w environ) as [Hno_client Hno_waiter].
  destruct (boto3_client w) as [e |] eqn:Hc.
  { rewrite (Hno_client e eq_refl) in Hmain. injection Hmain as <- <-.
    exists [], (fail_line e). split_and!; [done | constructor | cbn; lia | eauto]. }
  destruct (get_waiter w) as [e |] eqn:Hg.
  { rewrite (Hno_waiter e eq_refl eq_refl) in Hmain. injection Hmain as <- <-.
    exists [CallGetWaiter], (fail_line e).
    split_and!; [done | by repeat constructor | cbn; lia | eauto]. }
  apply main_cases in Hmain
    as [(pre & e & -> & -> & _ & Hpre)
       | (rs & s2 & wevs & last & _ & _ & -> & Hw & _ & Hrest)].
  - destruct (Hpre (conj Hc Hg)) as [-> _].
    exists [CallGetWaiter], (fail_line e).
    split_and!; [done | by repeat constructor | cbn; lia | eauto].
  - cbv zeta in *.
    exists (CallGetWaiter
            :: CallChange
                 (to_value (environ !! "INPUT_AWS_ROUTE53_HOSTED_ZONE_ID"))
                 (VDict rs) :: wevs), last.
    split_and!; [done | | |].
    + repeat (apply List.Forall_cons; [reflexivity |]).
      by apply wait_events_not_output.
    + change (CallGetWaiter :: CallChange _ _ :: wevs)
        with ([CallGetWaiter; CallChange
                 (to_value (environ !! "INPUT_AWS_ROUTE53_HOSTED_ZONE_ID"))
                 (VDict rs)] ++ wevs).
      rewrite submissions_app, (submissions_wait_events wevs Hw). cbn. lia.
    + destruct (change_resource_record_sets w _ _) as [e | result].
      { destruct Hrest as (_ & -> & ->). eauto. }
      destruct (_obtain_request_id w result) as [e | request_id].
      { destruct Hrest as (_ & -> & ->). eauto. }
      destruct Hrest as (r & _ & Hr).
      destruct r as [[e | c] | []]; [destruct Hr as [-> ->]; eauto | done |].
      destruct (_obtain_marshalled_result w result) as [e | output];
        destruct Hr as [-> ->]; eauto.
Qed.

(** X13. Every run of [main] writes exactly one line of output, as its
    last event, and the exit status tells which: status 0 with a line on
    standard output, or status 1 with the error line of [change] on
    standard error.  The first event is always the creation of the
    client. *)
Theorem main_output_discipline (w : World) (environ : gmap string string)
    (tr : list event) (code : Z) :
  main w environ = (tr, code) →
  ∃ mid last,
    tr = CallClient :: mid ++ [last] ∧
    Forall (λ ev, is_output ev = false) mid ∧
    ((code = 0 ∧ ∃ out, last = Stdout out) ∨
     (code = 1 ∧ ∃ e, last = fail_line e)).
Proof.
  intros Hmain.
  destruct (main_shape w environ tr code Hmain)
    as (mid & last & Htr & Hmid & _ & Hlast).
  by exists mid, last.
Qed.

Lemma main_output_discipline_witness :
  ∃ mid last,
    (main rejecting_world sample_environ).1 = CallClient :: mid ++ [last] ∧
    Forall (λ ev, is_output ev = false) mid ∧
    (((main rejecting_world sample_environ).2 = 0 ∧ ∃ out, last = Stdout out) ∨
     ((main rejecting_world sample_environ).2 = 1 ∧ ∃ e, last = fail_line e)).
Proof.
  apply (main_output_discipline rejecting_world sample_environ).
  by destruct (main rejecting_world sample_environ).
Defined.

(** X14. The handler of [main] never runs: [change] turns every exception
    into its own error line and [SystemExit], which [except Exception]
    does not catch, so that no trace holds a line starting with
    [Fatal error]. *)
Theorem main_handler_is_dead (w : World) (environ : gmap string string)
    (tr : list event) (code : Z) :
  main w environ = (tr, code) →
  ∀ e, fatal_line e ∉ tr.
Proof.
  intros Hmain e Hin.
  destruct (main_shape w environ tr code Hmain)
    as (mid & last & -> & Hmid & _ & Hlast).
  apply elem_of_cons in Hin as [Hin | Hin]; [discriminate Hin |].
  apply elem_of_app in Hin as [Hin | Hin].
  - rewrite Forall_forall in Hmid. apply Hmid in Hin. discriminate Hin.
  - apply list_elem_of_singleton in Hin.
    destruct Hlast as [[_ [out ->]] | [_ [e' ->]]]; [discriminate Hin |].
    unfold fatal_line, fail_line in Hin. injection Hin as Hin.
    cbn in Hin. discriminate Hin.
Qed.

Lemma main_handler_is_dead_witness :
  fatal_line (OtherError "NoCredentialsError") ∉ (main no_client_world ∅).1.
Proof.
  apply (main_handler_is_dead no_client_world ∅ _ (main no_client_world ∅).2).
  by destruct (main no_client_world ∅).
Defined.

(** X15. A run of [main] submits at most once: its trace holds at most
    one call of [change_resource_record_sets], and no retry follows a
    rejected submission or a failed wait. *)
Theorem main_submits_at_most_once (w : World) (environ : gmap string string)
    (tr : list event) (code : Z) :
  main w environ = (tr, code) → (submissions tr ≤ 1)%nat.
Proof.
  intros Hmain.
  destruct (main_shape w environ tr code Hmain)
    as (mid & last & -> & _ & Hsub & Hlast).
  change (CallClient :: mid ++ [last]) with ([CallClient] ++ mid ++ [last]).
  rewrite !submissions_app.
  assert (submissions [last] = 0%nat) as ->
    by (by destruct Hlast as [[_ [out ->]] | [_ [e ->]]]).
  cbn. lia.
Qed.

Lemma main_submits_at_most_once_witness :
  (submissions (main pending_world
                  (<["INPUT_AWS_ROUTE53_WAIT" := "yes"]> sample_environ)).1
   ≤ 1)%nat.
Proof.
  apply (main_submits_at_most_once pending_world
           (<["INPUT_AWS_ROUTE53_WAIT" := "yes"]> sample_environ) _
           (main pending_world
              (<["INPUT_AWS_ROUTE53_WAIT" := "yes"]> sample_environ)).2).
  by destruct (main pending_world _).
Defined.

(** X16. Nothing is submitted before everything is validated: a
    submission in the trace of [main] means that the configuration passed
    every check of the builder, that the hosted-zone id is a non-empty
    string, sent as it is, and that the batch sent is the one the builder
    returned; the submission is the third call, after the two connection
    calls. *)
Theorem submission_implies_valid (w : World) (environ : gmap string string)
    (tr : list event) (code : Z) (zone batch : value) :
  main w environ = (tr, code) →
  CallChange zone batch ∈ tr →
  config_valid w environ = true ∧
  (∃ z, environ !! "INPUT_AWS_ROUTE53_HOSTED_ZONE_ID" = Some z ∧ z ≠ "" ∧
        zone = VStr z) ∧
  (∃ rs s2, _build_record_set w environ connected = (inr rs, s2) ∧
            batch = VDict rs) ∧
  ∃ rest, tr = [CallClient; CallGetWaiter; CallChange zone batch] ++ rest.
Proof.
  intros Hmain Hin.
  apply main_cases in Hmain
    as [(pre & e & -> & _ & Hpre & _)
       | (rs & s2 & wevs & last & Hb & Hz & -> & Hw & Hlast & _)].
  - exfalso. apply elem_of_app in Hin as [Hin | Hin].
    + rewrite Forall_forall in Hpre. by destruct (Hpre _ Hin).
    + by apply list_elem_of_singleton in Hin.
  - cbv zeta in Hin.
    rewrite !elem_of_app, !elem_of_cons, elem_of_nil in Hin.
    destruct Hin as [[Hin | [Hin | [Hin | []]]] | [Hin | [Hin | []]]];
      try discriminate Hin.
    + injection Hin as -> ->.
      pose proof Hb as Hv.
      apply build_record_set_inv in Hv as (_ & _ & _ & Hv & _).
      split_and!; [done | | by exists rs, s2 | by eexists].
      destruct (environ !! "INPUT_AWS_ROUTE53_HOSTED_ZONE_ID") as [[| a r] |];
        try discriminate Hz.
      by exists (String a r).
    + rewrite Forall_forall in Hw. by apply Hw in Hin.
    + by subst last.
Qed.

Lemma submission_implies_valid_witness :
  config_valid sample_world sample_environ = true ∧
  ∃ z, sample_environ !! "INPUT_AWS_ROUTE53_HOSTED_ZONE_ID" = Some z ∧ z ≠ "" ∧
       VStr "Z123" = VStr z.
Proof.
  destruct (main sample_world sample_environ) as [tr code] eqn:Hmain.
  destruct (submission_implies_valid sample_world sample_environ tr code
              (VStr "Z123")
              (VDict (<["Changes" := VList [VDict {[
                 "Action" := VStr "UPSERT";
                 "ResourceRecordSet" := VDict {[
                    "Name" := VStr "example.com";
                    "Type" := VStr "A";
                    "TTL" := VInt 300;
                    "ResourceRecords" :=
                      VList [VDict {[ "Value" := VStr "1.2.3.4" ]}]
                 ]}
              ]}]]> ∅)) Hmain)
    as (Hv & Hz & _).
  - vm_compute in Hmain. injection Hmain as <- <-.
    apply (list_elem_of_lookup_2 _ 2%nat). vm_compute. reflexivity.
  - split; assumption.
Defined.

(** ** Result extraction, in general *)

Lemma obtain_request_id_inr w result id :
  _obtain_request_id w result = inr id ↔
  ∃ d info, result = VDict d ∧ d !! "ChangeInfo" = Some (VDict info) ∧
            info !! "Id" = Some id.
Proof.
  unfold _obtain_request_id, subscript. split.
  - destruct result as [| | | | | d]; try discriminate.
    destruct (d !! "ChangeInfo") as [[| | | | | info] |] eqn:Hci;
      try discriminate.
    destruct (info !! "Id") as [x |] eqn:Hid; [| discriminate].
    intros [= <-]. by exists d, info.
  - intros (d & info & -> & -> & ->). reflexivity.
Qed.

Lemma obtain_marshalled_result_inr w result output :
  _obtain_marshalled_result w result = inr output ↔
  ∃ d metadata, result = VDict d ∧ d !! "ResponseMetadata" = Some metadata ∧
                output = json_dumps w metadata.
Proof.
  unfold _obtain_marshalled_result, subscript. split.
  - destruct result as [| | | | | d]; try discriminate.
    destruct (d !! "ResponseMetadata") as [metadata |] eqn:Hmd;
      [| discriminate].
    intros [= <-]. by exists d, metadata.
  - intros (d & metadata & -> & -> & ->). reflexivity.
Qed.

(** X17. The extractors succeed on exactly the well-shaped responses:
    [_obtain_request_id] returns [id] if and only if the response is a
    dictionary whose [ChangeInfo] is a dictionary with [id] under [Id],
    of whatever type; [_obtain_marshalled_result] returns a text if and
    only if the response is a dictionary with a [ResponseMetadata] entry,
    and the text is [json.dumps] of that entry.  A [ChangeInfo] that is
    present but is no dictionary gives a [TypeError], not a [KeyError]. *)
Theorem extraction_characterised (w : World) (result : value) :
  (∀ id, _obtain_request_id w result = inr id ↔
         ∃ d info, result = VDict d ∧
                   d !! "ChangeInfo" = Some (VDict info) ∧
                   info !! "Id" = Some id) ∧
  (∀ output, _obtain_marshalled_result w result = inr output ↔
             ∃ d metadata, result = VDict d ∧
                           d !! "ResponseMetadata" = Some metadata ∧
                           output = json_dumps w metadata) ∧
  (∀ d v, result = VDict d → d !! "ChangeInfo" = Some v →
          (∀ info, v ≠ VDict info) →
          _obtain_request_id w result
          = inl (TypeError (subscript_error_text w v))).
Proof.
  split_and!.
  - intros id. apply obtain_request_id_inr.
  - intros output. apply obtain_marshalled_result_inr.
  - intros d v -> Hv Hnd. unfold _obtain_request_id, subscript. rewrite Hv.
    destruct v as [| | | | | info]; try reflexivity.
    by destruct (Hnd info).
Qed.

Lemma extraction_characterised_witness :
  _obtain_request_id sample_world sample_response = inr (VStr "/change/C1") ∧
  _obtain_request_id sample_world
    (VDict {[ "ChangeInfo" := VStr "PENDING" ]})
  = inl (TypeError (subscript_error_text sample_world (VStr "PENDING"))).
Proof.
  split.
  - apply (proj1 (extraction_characterised sample_world sample_response)).
    eexists _, _. split_and!; reflexivity.
  - apply (proj2 (proj2 (extraction_characterised sample_world
                           (VDict {[ "ChangeInfo" := VStr "PENDING" ]})))
             {[ "ChangeInfo" := VStr "PENDING" ]} (VStr "PENDING"));
      [reflexivity | reflexivity | discriminate].
Defined.

(** ** Successful runs, the order of the last stages, the environment *)

(** X18. Exit status 0 is reached in one way only: the two connection
    calls, one submission that the service accepted with a response
    carrying [ChangeInfo], [Id] and [ResponseMetadata], the events of the
    waiter (none when no wait is requested), and as last event the text
    [json.dumps] of that [ResponseMetadata] followed by a newline on
    standard output. *)
Theorem success_output (w : World) (environ : gmap string string)
    (tr : list event) :
  main w environ = (tr, 0) →
  ∃ zone batch d info id metadata wevs,
    tr = [CallClient; CallGetWaiter; CallChange zone batch] ++ wevs
         ++ [Stdout (json_dumps w metadata +:+ newline)] ∧
    Forall (λ ev, is_wait_event ev = true) wevs ∧
    (wait_requested environ = false → wevs = []) ∧
    change_resource_record_sets w zone batch = inr (VDict d) ∧
    d !! "ChangeInfo" = Some (VDict info) ∧
    info !! "Id" = Some id ∧
    d !! "ResponseMetadata" = Some metadata.
Proof.
  intros Hmain.
  apply main_cases in Hmain
    as [(pre & e & _ & Hcode & _)
       | (rs & s2 & wevs & last & Hb & Hz & -> & Hw & Hlast & Hrest)];
    [discriminate Hcode |].
  cbv zeta in *.
  destruct (change_resource_record_sets w _ _) as [e | result] eqn:Hsub.
  { destruct Hrest as (_ & _ & Hcode). discriminate Hcode. }
  destruct (_obtain_request_id w result) as [e | id] eqn:Hid.
  { destruct Hrest as (_ & _ & Hcode). discriminate Hcode. }
  destruct Hrest as (r & Hwait & Hr).
  destruct r as [[e | c] | []];
    [destruct Hr as [_ Hcode]; discriminate Hcode | done |].
  destruct (_obtain_marshalled_result w result) as [e | output] eqn:Hout.
  { destruct Hr as [_ Hcode]. discriminate Hcode. }
  destruct Hr as [-> _].
  apply obtain_request_id_inr in Hid as (d & info & -> & Hinfo & Hid).
  apply obtain_marshalled_result_inr in Hout as (d' & metadata & [= <-] & Hmd & ->).
  exists (to_value (environ !! "INPUT_AWS_ROUTE53_HOSTED_ZONE_ID")), (VDict rs),
    d, info, id, metadata, wevs.
  split_and!; try done.
  intros Hreq. rewrite wait_eq, Hreq in Hwait. injection Hwait as Hs.
  rewrite <- (app_nil_r (trace s2 ++ _)) in Hs at 1.
  by apply app_inv_head in Hs.
Qed.

Lemma success_output_witness :
  ∃ zone batch wevs,
    (main sample_world sample_environ).1
    = [CallClient; CallGetWaiter; CallChange zone batch] ++ wevs
      ++ [Stdout ("{ ... }" +:+ newline)] ∧
    wevs = [].
Proof.
  destruct (main sample_world sample_environ) as [tr code] eqn:Hmain.
  assert (Hcode : code = 0)
    by (vm_compute in Hmain; by injection Hmain as _ <-).
  subst code.
  destruct (success_output sample_world sample_environ tr Hmain)
    as (zone & batch & d & info & id & metadata & wevs
        & Htr & _ & Hno & Hsub & _ & _ & Hmd).
  injection Hsub as <-. injection Hmd as <-.
  exists zone, batch, wevs. split; [exact Htr | by apply Hno].
Defined.

(** X19. The response metadata is read only after the wait.  With the
    wait requested and a response that has the change identifier but no
    [ResponseMetadata], the waiter is still called, with that identifier,
    delay 10 and 50 attempts, before the run fails with exit status 1. *)
Theorem wait_precedes_metadata (w : World) (environ : gmap string string)
    (tr : list event) (code : Z) (zone batch : value)
    (d info : gmap string value) (id : value) :
  wait_requested environ = true →
  main w environ = (tr, code) →
  CallChange zone batch ∈ tr →
  change_resource_record_sets w zone batch = inr (VDict d) →
  d !! "ChangeInfo" = Some (VDict info) →
  info !! "Id" = Some id →
  d !! "ResponseMetadata" = None →
  CallWait id 10 50 ∈ tr ∧ code = 1 ∧ ∀ out, Stdout out ∉ tr.
Proof.
  intros Hreq Hmain Hin Hsub Hinfo Hid Hmd.
  destruct (submitted_inv _ _ _ _ _ _ Hmain Hin)
    as (rs & s2 & wevs & last & _ & _ & Hb & -> & Hw & Hlast & Hrest).
  cbv zeta in Hrest. rewrite Hsub in Hrest.
  assert (Hrid : _obtain_request_id w (VDict d) = inr id)
    by (apply obtain_request_id_inr; by exists d, info).
  assert (Hout : _obtain_marshalled_result w (VDict d)
                 = inl (KeyError "ResponseMetadata"))
    by (unfold _obtain_marshalled_result, subscript; by rewrite Hmd).
  rewrite Hrid, Hout in Hrest. destruct Hrest as (r & Hwait & Hr).
  apply build_record_set_inv in Hb as (_ & _ & Hw2 & _).
  rewrite wait_eq, Hreq in Hwait. cbn [waiter with_trace] in Hwait.
  rewrite Hw2 in Hwait. cbn [waiter connected] in Hwait.
  apply waiter_loop_inv in Hwait as (evs & Heq & _).
  injection Heq as Heq. rewrite <- !app_assoc in Heq.
  do 2 apply app_inv_head in Heq. subst wevs.
  assert (Hfail : ∃ e, last = fail_line e ∧ code = 1).
  { destruct r as [[e | c] | []]; [| done |]; destruct Hr; eauto. }
  destruct Hfail as (e & -> & ->).
  split_and!; [| done |].
  - change DEFAULT_WAITER_DELAY with 10.
    change DEFAULT_WAITER_MAX_ATTEMPTS with 50.
    rewrite !elem_of_app, !elem_of_cons. auto 10.
  - intros out Ho. apply elem_of_app in Ho as [Ho | Ho].
    + rewrite !elem_of_cons, elem_of_nil in Ho.
      destruct Ho as [Ho | [Ho | [Ho | []]]]; discriminate Ho.
    + apply elem_of_app in Ho as [Ho | Ho].
      * rewrite Forall_forall in Hw. apply Hw in Ho. discriminate Ho.
      * apply list_elem_of_singleton in Ho. discriminate Ho.
Qed.

Lemma wait_precedes_metadata_witness :
  let environ := <["INPUT_AWS_ROUTE53_WAIT" := "1"]> sample_environ in
  CallWait (VStr "/change/C1") 10 50 ∈ (main no_metadata_world environ).1 ∧
  (main no_metadata_world environ).2 = 1.
Proof.
  intros environ.
  destruct (main no_metadata_world environ) as [tr code] eqn:Hmain.
  destruct (wait_precedes_metadata no_metadata_world environ tr code
              (VStr "Z123")
              (VDict (<["Changes" := VList [VDict {[
                 "Action" := VStr "UPSERT";
                 "ResourceRecordSet" := VDict {[
                    "Name" := VStr "example.com";
                    "Type" := VStr "A";
                    "TTL" := VInt 300;
                    "ResourceRecords" :=
                      VList [VDict {[ "Value" := VStr "1.2.3.4" ]}]
                 ]}
              ]}]]> ∅))
              {[ "ChangeInfo" := VDict {[ "Id" := VStr "/change/C1" ]} ]}
              {[ "Id" := VStr "/change/C1" ]}
              (VStr "/change/C1"))
    as (Hwait & Hcode & _); try reflexivity.
  - exact Hmain.
  - vm_compute in Hmain. injection Hmain as <- <-.
    apply (list_elem_of_lookup_2 _ 2%nat). vm_compute. reflexivity.
  - split; assumption.
Defined.

Lemma read_keys_agree e1 e2 :
  agree_on_read_keys e1 e2 →
  e1 !! "INPUT_AWS_ROUTE53_RR_COMMENT" = e2 !! "INPUT_AWS_ROUTE53_RR_COMMENT" ∧
  e1 !! "INPUT_AWS_ROUTE53_RR_ACTION" = e2 !! "INPUT_AWS_ROUTE53_RR_ACTION" ∧
  e1 !! "INPUT_AWS_ROUTE53_RR_NAME" = e2 !! "INPUT_AWS_ROUTE53_RR_NAME" ∧
  e1 !! "INPUT_AWS_ROUTE53_RR_TYPE" = e2 !! "INPUT_AWS_ROUTE53_RR_TYPE" ∧
  e1 !! "INPUT_AWS_ROUTE53_RR_TTL" = e2 !! "INPUT_AWS_ROUTE53_RR_TTL" ∧
  e1 !! "INPUT_AWS_ROUTE53_RR_VALUE" = e2 !! "INPUT_AWS_ROUTE53_RR_VALUE" ∧
  e1 !! "INPUT_AWS_ROUTE53_HOSTED_ZONE_ID"
  = e2 !! "INPUT_AWS_ROUTE53_HOSTED_ZONE_ID" ∧
  e1 !! "INPUT_AWS_ROUTE53_WAIT" = e2 !! "INPUT_AWS_ROUTE53_WAIT".
Proof.
  intros H. split_and!; apply H; unfold READ_KEYS; rewrite !elem_of_cons;
    auto 10.
Qed.

(** X20. Through [_get_env] the program reads eight environment
    variables and no other.  The World being the same, that is the
    interpreter's settings (iteration order of the sets, digit limit of
    [int]), the creation of the client and the answers of the service,
    which other variables of the process may influence, two environments
    that agree on those eight variables give the same builder result, the
    same trace and the same exit status. *)
Theorem environment_frame (w : World) (e1 e2 : gmap string string) :
  agree_on_read_keys e1 e2 →
  (∀ s, _build_record_set w e1 s = _build_record_set w e2 s) ∧
  main w e1 = main w e2.
Proof.
  intros H.
  destruct (read_keys_agree e1 e2 H)
    as (Hco & Ha & Hn & Ht & Httl & Hv & Hz & Hwt).
  assert (Hbuild : ∀ s, _build_record_set w e1 s = _build_record_set w e2 s).
  { intros s.
    rewrite !build_record_set_eq, !set_comment_eq, !set_base_changes_eq.
    cbv zeta. by rewrite Hco, Ha, Hn, Ht, Httl, Hv. }
  assert (Hwait : ∀ id s, _wait w e1 id s = _wait w e2 id s).
  { intros id s. rewrite !wait_eq. unfold wait_requested. by rewrite Hwt. }
  split; [exact Hbuild |].
  rewrite !main_eq, !change_body_eq, Hbuild, Hz.
  destruct (boto3_client w); [done |].
  destruct (get_waiter w); [done |].
  destruct (_build_record_set w e2 connected) as [[x | rs] s2]; [done |].
  cbv zeta. destruct (truthy _); [| done]. cbn [negb].
  destruct (change_resource_record_sets w _ _) as [e | result]; [done |].
  destruct (_obtain_request_id w result) as [e | request_id]; [done |].
  by rewrite Hwait.
Qed.

Lemma environment_frame_witness :
  main sample_world (<["PATH" := "/usr/bin"]> sample_environ)
  = main sample_world sample_environ.
Proof.
  apply (environment_frame sample_world).
  intros key Hkey. apply lookup_insert_ne. intros <-.
  unfold READ_KEYS in Hkey. rewrite !elem_of_cons, elem_of_nil in Hkey.
  repeat (destruct Hkey as [Hkey | Hkey]; [discriminate Hkey |]).
  exact Hkey.
Defined.

(** X21. An invalid configuration never reaches the service.  Once the
    connection is established, a configuration that fails a check of the
    builder gives a run of the two connection calls and the error line,
    with exit status 1, and the failure reported is a [NameError]
    (MissingConfiguration) or a [ValueError] (InvalidInput). *)
Theorem invalid_config_not_submitted (w : World)
    (environ : gmap string string) :
  boto3_client w = None →
  get_waiter w = None →
  config_valid w environ = false →
  ∃ e, main w environ = ([CallClient; CallGetWaiter; fail_line e], 1) ∧
       (kind_of e = MissingConfiguration ∨ kind_of e = InvalidInput).
Proof.
  intros Hc Hg Hinv.
  destruct (main w environ) as [tr code] eqn:Hmain.
  apply main_cases in Hmain
    as [(pre & e & -> & -> & _ & Hpre)
       | (rs & s2 & wevs & last & Hb & _)].
  - destruct (Hpre (conj Hc Hg)) as [-> [[s2 Hb] | [Hv _]]]; [| congruence].
    exists e. split; [done |].
    apply build_record_set_inv in Hb as (_ & _ & _ & _ & e' & [= <-] & Hk).
    exact Hk.
  - apply build_record_set_inv in Hb as (_ & _ & _ & Hv & _). congruence.
Qed.

Lemma invalid_config_not_submitted_witness :
  ∃ e, main sample_world
         (<["INPUT_AWS_ROUTE53_RR_TTL" := "soon"]> sample_environ)
       = ([CallClient; CallGetWaiter; fail_line e], 1) ∧
       (kind_of e = MissingConfiguration ∨ kind_of e = InvalidInput).
Proof.
  apply (invalid_config_not_submitted sample_world
           (<["INPUT_AWS_ROUTE53_RR_TTL" := "soon"]> sample_environ));
    reflexivity.
Defined.
